(** * donkeypart_unitysimulator: the telemetry-to-control bridge

    A shallow embedding of [donkeypart_unitysimulator/part.py]: the classes
    [FPSTimer] and [SteeringServer], with their methods written as programs
    of a state-and-exception monad over the object they mutate and the
    outside world (the wall clock, standard output, the socket server and the
    two opaque parts).

    Python floats are IEEE binary64 numbers, here the kernel's primitive
    floats.  What the interpreter and the libraries provide (the clock, the
    builtin [float], [float.__str__], base64 and image decoding) is collected
    in the class [Runtime]; every theorem holds for every instance of it. *)

From Stdlib Require Import ZArith Floats Lia.
From stdpp Require Import base option list strings gmap pretty.

Set Warnings "-inexact-float".
Local Open Scope Z_scope.

(** ** Python values, exceptions and results *)

(** The values that cross the handlers' boundary: the elements of a JSON
    payload, the arguments of [print] and of [send_control], and the
    [skip_sid] argument of [emit]. *)
Inductive pyval :=
| PyNone
| PyBool (b : bool)
| PyInt (z : Z)
| PyFloat (f : float)
| PyStr (s : string).

Inductive exn :=
| KeyError (key : string)
| ValueError
| TypeError
| ZeroDivisionError
| Exception (msg : string).

(** A call either returns a value or raises. *)
Inductive result (A : Type) :=
| Ok (a : A)
| Raise (e : exn).
Arguments Ok {A} a.
Arguments Raise {A} e.

(** A decoded camera image, [np.asarray(image)]: rows of pixels of channel
    bytes. *)
Definition ndarray : Type := list (list (list Byte.byte)).

(** ** The interpreter and the libraries *)

Class Runtime := {
  (** [time.time()]: the value the n-th call returns. *)
  time_reading : nat -> float;
  (** the builtin [float(x)] *)
  float_of : pyval -> result float;
  (** [float.__str__] *)
  float_str : float -> string;
  (** [base64.b64decode] *)
  b64decode : pyval -> result (list Byte.byte);
  (** [np.asarray(Image.open(BytesIO(bytes)))] *)
  image_open : list Byte.byte -> result ndarray
}.

(** ** The outside world *)

(** One call of [sio.emit(event, data=..., skip_sid=...)].  [room] is the
    recipient argument; no call of this program passes it. *)
Record emit_call := {
  event : string;
  data : gmap string string;
  room : option string;
  skip_sid : pyval
}.

(** What a handler does to the world, in order. *)
Inductive effect :=
| Stdout (args : list pyval)
| SioEmit (c : emit_call)
| ImagePartRun (img : ndarray)
| KpartRun (img : ndarray).

Record env := {
  clock : nat;
  trace : list effect
}.

(** ** The monad of methods

    A method of an object of class [O] maps the object and the world to a
    result and the object and world it leaves behind.  An exception keeps
    the mutations made before it, as in Python. *)
Definition ST (O A : Type) : Type := O * env -> result A * (O * env).

#[global] Instance ST_ret O : MRet (ST O) := fun A a s => (Ok a, s).

#[global] Instance ST_bind O : MBind (ST O) := fun A B k m s =>
  match m s with
  | (Ok a, s') => k a s'
  | (Raise e, s') => (Raise e, s')
  end.

Definition raise {O A} (e : exn) : ST O A := fun s => (Raise e, s).

Definition lift {O A} (r : result A) : ST O A := fun s => (r, s).

Definition get_self {O} : ST O O := fun s => (Ok (fst s), s).

Definition modify_self {O} (f : O -> O) : ST O unit :=
  fun s => (Ok tt, (f (fst s), snd s)).

Definition log {O} (x : effect) : ST O unit :=
  fun s => (Ok tt, (fst s, {| clock := clock (snd s); trace := trace (snd s) ++ [x] |})).

Definition py_print {O} (args : list pyval) : ST O unit := log (Stdout args).

Definition sio_emit {O} (c : emit_call) : ST O unit := log (SioEmit c).

(** The result monad on its own, for the pure part of decoding. *)
#[global] Instance result_ret : MRet result := fun A a => Ok a.

#[global] Instance result_bind : MBind result := fun A B k r =>
  match r with
  | Ok a => k a
  | Raise e => Raise e
  end.

(** Python's [a / b] on floats: division by zero raises. *)
Definition float_truediv {O} (a b : float) : ST O float :=
  if PrimFloat.eqb b 0%float then raise ZeroDivisionError else mret (a / b)%float.

Section Bridge.
Context `{rt : Runtime}.

Definition time_time {O} : ST O float :=
  fun s => (Ok (time_reading (clock (snd s))),
            (fst s, {| clock := S (clock (snd s)); trace := trace (snd s) |})).

(** [x.__str__()] *)
Definition py_str (x : pyval) : string :=
  match x with
  | PyNone => "None"
  | PyBool true => "True"
  | PyBool false => "False"
  | PyInt z => pretty z
  | PyFloat f => float_str f
  | PyStr s => s
  end.

(** ** class FPSTimer *)

Record FPSTimer := {
  fps_t : float;
  fps_iter : Z
}.

Definition set_t (v : float) (tm : FPSTimer) : FPSTimer :=
  {| fps_t := v; fps_iter := fps_iter tm |}.

Definition set_iter (v : Z) (tm : FPSTimer) : FPSTimer :=
  {| fps_t := fps_t tm; fps_iter := v |}.

(** [FPSTimer()] *)
Definition FPSTimer_init (e : env) : FPSTimer * env :=
  ({| fps_t := time_reading (clock e); fps_iter := 0 |},
   {| clock := S (clock e); trace := trace e |}).

Definition reset : ST FPSTimer unit :=
  now ← time_time;
  modify_self (set_t now);;
  modify_self (set_iter 0).

Definition on_frame : ST FPSTimer unit :=
  modify_self (fun tm => set_iter (fps_iter tm + 1) tm);;
  tm ← get_self;
  if fps_iter tm =? 100 then
    e ← time_time;
    fps ← float_truediv 100%float (e - fps_t tm)%float;
    py_print [PyStr "fps"; PyFloat fps];;
    now ← time_time;
    modify_self (set_t now);;
    modify_self (set_iter 0)
  else mret tt.

(** ** class SteeringServer

    The attributes the handlers read.  [self.model], [self.sio] and
    [self.app] are handles: the only use the handlers make of them is
    [self.sio.emit], recorded in the trace. *)
Record SteeringServer := {
  timer : FPSTimer;
  kpart : ndarray -> result (float * float);
  image_part : option (ndarray -> result ndarray);
  steering_scale : float;
  top_speed : float
}.

Definition set_timer (tm : FPSTimer) (srv : SteeringServer) : SteeringServer :=
  {| timer := tm; kpart := kpart srv; image_part := image_part srv;
     steering_scale := steering_scale srv; top_speed := top_speed srv |}.

(** A method call on [self.timer]. *)
Definition on_timer {A} (m : ST FPSTimer A) : ST SteeringServer A :=
  fun s =>
    match m (timer (fst s), snd s) with
    | (r, (tm, e)) => (r, (set_timer tm (fst s), e))
    end.

Definition default_top_speed : float := 4.0%float.
Definition default_steering_scale : float := 1.0%float.

(** [SteeringServer(_sio, kpart, top_speed, image_part, steering_scale)] *)
Definition SteeringServer_init
    (kp : ndarray -> result (float * float)) (ts : float)
    (ip : option (ndarray -> result ndarray)) (sc : float) (e : env)
    : SteeringServer * env :=
  let '(tm, e') := FPSTimer_init e in
  ({| timer := tm; kpart := kp; image_part := ip;
      steering_scale := sc; top_speed := ts |}, e').

Definition throttle_control (self : SteeringServer)
    (last_steering last_throttle speed nn_throttle : float) : float :=
  if (speed <? top_speed self)%float then 0.3%float else 0.0%float.

(** ** Decoding a telemetry payload (the first half of [telemetry]) *)

Record TelemetryFrame := {
  last_steering : float;
  last_throttle : float;
  speed : float;
  image : ndarray
}.

(** [data[k]] *)
Definition getitem (d : gmap string pyval) (k : string) : result pyval :=
  match d !! k with
  | Some v => Ok v
  | None => Raise (KeyError k)
  end.

(** The statements of [telemetry] from [last_steering = ...] to
    [image_array = np.asarray(image)]: they touch neither [self] nor the
    world, and the first that raises ends the handler. *)
Definition decode_frame (d : gmap string pyval) : result TelemetryFrame :=
  v ← getitem d "steering_angle";
  last_steering ← float_of v;
  v ← getitem d "throttle";
  last_throttle ← float_of v;
  v ← getitem d "speed";
  speed ← float_of v;
  imgString ← getitem d "image";
  bytes ← b64decode imgString;
  image_array ← image_open bytes;
  mret {| last_steering := last_steering; last_throttle := last_throttle;
          speed := speed; image := image_array |}.

(** ** The handlers *)

Definition steer_call (steering_angle throttle : pyval) : emit_call :=
  {| event := "steer";
     data := {[ "steering_angle" := py_str steering_angle;
                "throttle" := py_str throttle ]};
     room := None;
     skip_sid := PyBool true |}.

Definition manual_call : emit_call :=
  {| event := "manual"; data := ∅; room := None; skip_sid := PyBool true |}.

Definition send_control (steering_angle throttle : pyval) : ST SteeringServer unit :=
  sio_emit (steer_call steering_angle throttle).

(** [if data:] on a payload that is [None] or a dict. *)
Definition truthy (data : option (gmap string pyval)) : bool :=
  match data with
  | Some d => negb (bool_decide (d = ∅))
  | None => false
  end.

(** [self.image_part.run(image_array)] when a filter part is configured. *)
Definition preprocess (image_array : ndarray) : ST SteeringServer ndarray :=
  self ← get_self;
  match image_part self with
  | Some run => log (ImagePartRun image_array);; lift (run image_array)
  | None => mret image_array
  end.

(** [self.kpart.run(image_array)] *)
Definition predict (image_array : ndarray) : ST SteeringServer (float * float) :=
  self ← get_self;
  log (KpartRun image_array);;
  lift (kpart self image_array).

Definition telemetry (sid : string) (data : option (gmap string pyval))
    : ST SteeringServer unit :=
  (if truthy data then
     fr ← lift (decode_frame (default ∅ data));
     image_array ← preprocess (image fr);
     '(steering, throttle) ← predict image_array;
     self ← get_self;
     let throttle :=
       throttle_control self (last_steering fr) (last_throttle fr) (speed fr) throttle in
     let steering := (steering * steering_scale self)%float in
     send_control (PyFloat steering) (PyFloat throttle)
   else
     sio_emit manual_call);;
  on_timer on_frame.

Definition connect (sid : string) (environ : gmap string string)
    : ST SteeringServer unit :=
  py_print [PyStr "connect "; PyStr sid];;
  on_timer reset;;
  send_control (PyInt 0) (PyInt 0).

(** ** Sequences of calls on one server *)

Inductive call :=
| CallConnect (sid : string) (environ : gmap string string)
| CallTelemetry (sid : string) (data : option (gmap string pyval))
| CallThrottleControl (last_steering last_throttle speed nn_throttle : float)
| CallSendControl (steering_angle throttle : pyval).

Definition run_call (c : call) : ST SteeringServer unit :=
  match c with
  | CallConnect sid environ => connect sid environ
  | CallTelemetry sid data => telemetry sid data
  | CallThrottleControl ls lt sp nn =>
      self ← get_self;
      let _ := throttle_control self ls lt sp nn in mret tt
  | CallSendControl a b => send_control a b
  end.

(** The server outlives a handler that raised: the next call starts from the
    state the failed one left. *)
Fixpoint run_calls (cs : list call) (s : SteeringServer * env) : SteeringServer * env :=
  match cs with
  | [] => s
  | c :: cs' => run_calls cs' (snd (run_call c s))
  end.

End Bridge.

(** ** Delivery of an emitted event

    python-socketio's [Server.emit]: every connected client is in the room of
    its own session id; with no [room] the event goes to all connected
    clients; the client whose session id equals [skip_sid] is left out.
    Session ids are strings, so a [skip_sid] that is not a string equals
    none of them. *)
Definition sid_skipped (sid : string) (skip : pyval) : bool :=
  match skip with
  | PyStr s => String.eqb sid s
  | _ => false
  end.

Definition recipients (connected : list string) (c : emit_call) : list string :=
  List.filter (fun sid => negb (sid_skipped sid (skip_sid c)))
    (match room c with
     | None => connected
     | Some r => List.filter (fun sid => String.eqb sid r) connected
     end).

(** ** What a call adds to the trace *)

(** The effects a method run from [s] appended to the trace. *)
Definition produced {O A} (m : ST O A) (s : O * env) : list effect :=
  drop (length (trace (snd s))) (trace (snd (snd (m s)))).

(** The [emit] calls of event [ev] in a trace, in order. *)
Fixpoint emitted (ev : string) (tr : list effect) : list emit_call :=
  match tr with
  | [] => []
  | SioEmit c :: tr' =>
      if String.eqb (event c) ev then c :: emitted ev tr' else emitted ev tr'
  | _ :: tr' => emitted ev tr'
  end.

(** The calls of the inference adapter ([image_part.run], [kpart.run]) in a
    trace. *)
Fixpoint part_runs (tr : list effect) : list effect :=
  match tr with
  | [] => []
  | ImagePartRun img :: tr' => ImagePartRun img :: part_runs tr'
  | KpartRun img :: tr' => KpartRun img :: part_runs tr'
  | _ :: tr' => part_runs tr'
  end.

Definition is_stdout (x : effect) : bool :=
  match x with Stdout _ => true | _ => false end.

(** [for _ in range(n): timer.on_frame()] *)
Fixpoint frames `{rt : Runtime} (n : nat) : ST FPSTimer unit :=
  match n with
  | O => mret tt
  | S n' => on_frame;; frames n'
  end.

(** ** Vocabulary of the statements *)

Section Vocabulary.
Context `{rt : Runtime}.

(** The world after some more effects. *)
Definition record (l : list effect) (e : env) : env :=
  {| clock := clock e; trace := trace e ++ l |}.

(** What [preprocess] returns, and what it adds to the trace. *)
Definition preprocessed (self : SteeringServer) (img : ndarray) : result ndarray :=
  match image_part self with
  | Some run => run img
  | None => Ok img
  end.

Definition preprocess_trace (self : SteeringServer) (img : ndarray) : list effect :=
  match image_part self with
  | Some _ => [ImagePartRun img]
  | None => []
  end.

(** The attributes given to the constructor. *)
Definition config (self : SteeringServer)
    : (ndarray -> result (float * float)) * option (ndarray -> result ndarray)
      * float * float :=
  (kpart self, image_part self, steering_scale self, top_speed self).

(** A method that leaves the configuration as it found it. *)
Definition preserves_config {A} (m : ST SteeringServer A) : Prop :=
  forall s, config (fst (snd (m s))) = config (fst s).

(** A method that only appends to the trace. *)
Definition appends {O A} (m : ST O A) : Prop :=
  forall s, exists l, trace (snd (snd (m s))) = trace (snd s) ++ l.

(** The ways a non-empty payload can be malformed: a required key is
    missing, a scalar field is not numeric, or the image field does not
    decode to an image. *)
Inductive malformed (d : gmap string pyval) : Prop :=
| missing_key (k : string) :
    k ∈ ["steering_angle"; "throttle"; "speed"; "image"] ->
    d !! k = None -> malformed d
| non_numeric (k : string) (v : pyval) (x : exn) :
    k ∈ ["steering_angle"; "throttle"; "speed"] ->
    d !! k = Some v -> float_of v = Raise x -> malformed d
| bad_base64 (v : pyval) (x : exn) :
    d !! "image" = Some v -> b64decode v = Raise x -> malformed d
| bad_image (v : pyval) (b : list Byte.byte) (x : exn) :
    d !! "image" = Some v -> b64decode v = Ok b -> image_open b = Raise x ->
    malformed d.

End Vocabulary.

(** [timer.reset()] followed by [n] frames. *)
Definition reset_then_frames `{rt : Runtime} (n : nat) : ST FPSTimer unit :=
  reset;; frames n.

(** ** A runtime, a server and payloads for the examples

    [example_runtime now] converts only floats with [float], prints the few
    floats the examples send, decodes one base64 string and reads its three
    bytes as a 1x1 RGB image; its clock is [now]. *)

Definition example_float_of (v : pyval) : result float :=
  match v with
  | PyFloat f => Ok f
  | PyNone => Raise TypeError
  | _ => Raise ValueError
  end.

Definition example_float_str (f : float) : string :=
  if (f =? 0.3)%float then "0.3"
  else if (f =? 0.5)%float then "0.5"
  else if (f =? 0)%float then "0.0"
  else "nan".

Definition example_b64decode (v : pyval) : result (list Byte.byte) :=
  match v with
  | PyStr "AAAA" => Ok [Byte.x00; Byte.x00; Byte.x00]
  | PyStr _ => Raise (Exception "binascii.Error")
  | _ => Raise TypeError
  end.

Definition example_image_open (b : list Byte.byte) : result ndarray :=
  match b with
  | [r; g; bl] => Ok [[[r; g; bl]]]
  | _ => Raise (Exception "UnidentifiedImageError")
  end.

Definition example_runtime (now : nat -> float) : Runtime :=
  {| time_reading := now;
     float_of := example_float_of;
     float_str := example_float_str;
     b64decode := example_b64decode;
     image_open := example_image_open |}.

(** A clock that advances one second per reading, and one that stands
    still. *)
Definition ticking_clock (n : nat) : float :=
  PrimFloat.of_uint63 (Uint63.of_Z (Z.of_nat n)).

Definition frozen_clock (n : nat) : float := 1000.0%float.

Definition ticking_runtime : Runtime := example_runtime ticking_clock.

Definition frozen_runtime : Runtime := example_runtime frozen_clock.

Definition example_image : ndarray := [[[Byte.x00; Byte.x00; Byte.x00]]].

Definition example_kpart (img : ndarray) : result (float * float) :=
  Ok (0.5%float, 1.0%float).

Definition example_env : env := {| clock := 0; trace := [] |}.

Definition example_server `{rt : Runtime} : SteeringServer * env :=
  SteeringServer_init example_kpart default_top_speed None default_steering_scale
    example_env.

Definition example_payload : gmap string pyval :=
  {[ "steering_angle" := PyFloat 0%float; "throttle" := PyFloat 0%float;
     "speed" := PyFloat 1.0%float; "image" := PyStr "AAAA" ]}.

Definition example_frame : TelemetryFrame :=
  {| last_steering := 0%float; last_throttle := 0%float; speed := 1.0%float;
     image := example_image |}.

(** The same payload without its [speed] key. *)
Definition payload_without_speed : gmap string pyval :=
  {[ "steering_angle" := PyFloat 0%float; "throttle" := PyFloat 0%float;
     "image" := PyStr "AAAA" ]}.

(** ** Vocabulary of the further properties *)

(** All the [emit] calls in a trace, in order. *)
Fixpoint emits (tr : list effect) : list emit_call :=
  match tr with
  | [] => []
  | SioEmit c :: tr' => c :: emits tr'
  | _ :: tr' => emits tr'
  end.

(** An [emit] as this program makes them: a "steer" or a "manual" event, no
    recipient, [skip_sid=True]. *)
Definition broadcast (c : emit_call) : bool :=
  (String.eqb (event c) "steer" || String.eqb (event c) "manual")
  && match room c with None => true | Some _ => false end
  && match skip_sid c with PyBool true => true | _ => false end.

Definition effect_ok (x : effect) : bool :=
  match x with
  | SioEmit c => broadcast c
  | _ => true
  end.

(** A method whose additions to the trace all satisfy [effect_ok]. *)
Definition appends_ok {O A} (m : ST O A) : Prop :=
  forall s, exists l,
    trace (snd (snd (m s))) = trace (snd s) ++ l /\ forallb effect_ok l = true.

(** The report of the [i]-th window of a timer reset at clock reading [c]:
    the window ends at reading [c + 2i + 1] and began at reading [c + 2i]. *)
Definition window_report `{rt : Runtime} (c i : nat) : effect :=
  Stdout [PyStr "fps";
          PyFloat (100 / (time_reading (S (c + 2 * i))
                          - time_reading (c + 2 * i)))%float].

(** One empty telemetry event from each of the given connections. *)
Definition manual_frames `{rt : Runtime} (sids : list string) : list call :=
  map (fun sid => CallTelemetry sid None) sids.

(** Parts that raise, servers built on them, and two more payloads, for
    the examples. *)
Definition failing_kpart (img : ndarray) : result (float * float) :=
  Raise (Exception "predict").

Definition failing_filter (img : ndarray) : result ndarray :=
  Raise (Exception "filter").

Definition server_with_failing_model `{rt : Runtime} : SteeringServer * env :=
  SteeringServer_init failing_kpart default_top_speed None default_steering_scale
    example_env.

Definition server_with_failing_filter `{rt : Runtime} : SteeringServer * env :=
  SteeringServer_init example_kpart default_top_speed (Some failing_filter)
    default_steering_scale example_env.

Definition payload_with_extra_key : gmap string pyval :=
  <[ "frame" := PyInt 7 ]> example_payload.

Definition payload_speed_only : gmap string pyval :=
  {[ "speed" := PyFloat 1.0%float ]}.

(** ** IEEE comparison *)

Lemma SFcompare_flip x y c :
  SFcompare x y = Some c -> SFcompare y x = Some (CompOpp c).
Proof.
  destruct x as [sx|sx| |sx mx ex], y as [sy|sy| |sy my ey]; simpl;
    try destruct sx; try destruct sy; simpl; try congruence;
    try (intros [= <-]; reflexivity).
  all: rewrite (Z.compare_antisym ex ey); destruct (ex ?= ey)%Z; simpl;
    try (intros [= <-]; reflexivity).
  all: change (Pos.compare_cont Eq my mx) with (my ?= mx)%positive;
    change (Pos.compare_cont Eq mx my) with (mx ?= my)%positive;
    rewrite (Pos.compare_antisym mx my); destruct (mx ?= my)%positive; simpl;
    intros [= <-]; reflexivity.
Qed.

(** [x >= y] holds only when [x < y] does not. *)
Lemma float_geb_not_ltb (x y : float) :
  (y <=? x)%float = true -> (x <? y)%float = false.
Proof.
  rewrite leb_spec, ltb_spec. unfold SFleb, SFltb.
  destruct (SFcompare (Prim2SF y) (Prim2SF x)) as [c|] eqn:E; [|discriminate].
  rewrite (SFcompare_flip _ _ _ E). destruct c; simpl; congruence.
Qed.

(** ** The throttle policy *)

Section ThrottleControl.
Context `{rt : Runtime}.

(** C4: [throttle_control] returns exactly 0.3 when [speed < top_speed] and
    exactly 0.0 when [speed >= top_speed], whatever the last steering, the
    last throttle and the proposed throttle are. *)
Theorem throttle_control_governs (self : SteeringServer)
    (last_steering last_throttle speed nn_throttle : float) :
  ((speed <? top_speed self)%float = true ->
     throttle_control self last_steering last_throttle speed nn_throttle = 0.3%float) /\
  ((top_speed self <=? speed)%float = true ->
     throttle_control self last_steering last_throttle speed nn_throttle = 0.0%float) /\
  (forall ls lt nn : float,
     throttle_control self ls lt speed nn =
     throttle_control self last_steering last_throttle speed nn_throttle).
Proof.
  unfold throttle_control. repeat split.
  - intros ->. reflexivity.
  - intros H. rewrite (float_geb_not_ltb _ _ H). reflexivity.
Qed.

End ThrottleControl.

(** ** The frame-rate timer *)

Ltac unfold_st :=
  unfold py_print, sio_emit, log, time_time, modify_self, get_self, lift, raise,
    float_truediv, mbind, ST_bind, mret, ST_ret, result_bind, result_ret.

Section FPSTimerFacts.
Context `{rt : Runtime}.

Lemma reset_spec (tm : FPSTimer) (e : env) :
  reset (tm, e) =
  (Ok tt, ({| fps_t := time_reading (clock e); fps_iter := 0 |},
           {| clock := S (clock e); trace := trace e |})).
Proof. reflexivity. Qed.

(** Below the window, a frame only counts. *)
Lemma on_frame_count (tm : FPSTimer) (e : env) :
  fps_iter tm + 1 <> 100 ->
  on_frame (tm, e) = (Ok tt, (set_iter (fps_iter tm + 1) tm, e)).
Proof.
  intros H. unfold on_frame. unfold_st. cbn.
  destruct (Z.eqb_spec (fps_iter tm + 1) 100) as [E|_]; [contradiction|].
  reflexivity.
Qed.

(** The frame that fills the window reports, when time has passed. *)
Lemma on_frame_report (tm : FPSTimer) (e : env) :
  fps_iter tm + 1 = 100 ->
  (time_reading (clock e) - fps_t tm =? 0)%float = false ->
  on_frame (tm, e) =
  (Ok tt,
   ({| fps_t := time_reading (S (clock e)); fps_iter := 0 |},
    {| clock := S (S (clock e));
       trace := trace e ++
         [Stdout [PyStr "fps";
                  PyFloat (100 / (time_reading (clock e) - fps_t tm))%float]] |})).
Proof.
  intros H Hz. unfold on_frame. unfold_st. cbn.
  rewrite H. cbn. rewrite Hz. reflexivity.
Qed.

(** When the clock reads what it read at the last reset, the division
    raises: nothing is printed and the counter keeps the value 100. *)
Lemma on_frame_zero_elapsed (tm : FPSTimer) (e : env) :
  fps_iter tm + 1 = 100 ->
  (time_reading (clock e) - fps_t tm =? 0)%float = true ->
  on_frame (tm, e) =
  (Raise ZeroDivisionError,
   ({| fps_t := fps_t tm; fps_iter := 100 |},
    {| clock := S (clock e); trace := trace e |})).
Proof.
  intros H Hz. unfold on_frame. unfold_st. cbn.
  rewrite H. cbn. rewrite Hz. reflexivity.
Qed.

(** Frames that do not reach the window leave the world alone. *)
Lemma frames_count (n : nat) (tm : FPSTimer) (e : env) :
  fps_iter tm + Z.of_nat n < 100 ->
  frames n (tm, e) = (Ok tt, (set_iter (fps_iter tm + Z.of_nat n) tm, e)).
Proof.
  revert tm. induction n as [|n IH]; intros tm H.
  - cbn [frames Z.of_nat]. rewrite Z.add_0_r. destruct tm; reflexivity.
  - cbn [frames]. unfold mbind, ST_bind.
    rewrite on_frame_count by lia.
    rewrite IH by (cbn [set_iter fps_iter]; lia).
    unfold set_iter; cbn [fps_iter fps_t]. do 3 f_equal. lia.
Qed.

(** Past the window the counter never equals 100 again. *)
Lemma frames_stuck (n : nat) (tm : FPSTimer) (e : env) :
  100 <= fps_iter tm ->
  frames n (tm, e) = (Ok tt, (set_iter (fps_iter tm + Z.of_nat n) tm, e)).
Proof.
  revert tm. induction n as [|n IH]; intros tm H.
  - cbn [frames Z.of_nat]. rewrite Z.add_0_r. destruct tm; reflexivity.
  - cbn [frames]. unfold mbind, ST_bind.
    rewrite on_frame_count by lia.
    rewrite IH by (cbn [set_iter fps_iter]; lia).
    unfold set_iter; cbn [fps_iter fps_t]. do 3 f_equal. lia.
Qed.

(** From a reset timer, fewer than 100 frames report nothing. *)
Lemma frames_after_reset_silent (n : nat) (tm : FPSTimer) (e : env) :
  (n < 100)%nat ->
  reset_then_frames n (tm, e) =
  (Ok tt, ({| fps_t := time_reading (clock e); fps_iter := Z.of_nat n |},
           {| clock := S (clock e); trace := trace e |})).
Proof.
  intros H. unfold reset_then_frames, mbind at 1. unfold ST_bind.
  rewrite reset_spec. rewrite frames_count by (cbn; lia). reflexivity.
Qed.

(** From a reset timer, the 100th frame reports once, 100 over the time
    read since the reset, and starts a new window, provided the two
    readings differ. *)
Lemma frames_after_reset_report (tm : FPSTimer) (e : env) :
  (time_reading (S (clock e)) - time_reading (clock e) =? 0)%float = false ->
  reset_then_frames 100 (tm, e) =
  (Ok tt,
   ({| fps_t := time_reading (S (S (clock e))); fps_iter := 0 |},
    {| clock := S (S (S (clock e)));
       trace := trace e ++
         [Stdout [PyStr "fps";
                  PyFloat (100 / (time_reading (S (clock e))
                                  - time_reading (clock e)))%float]] |})).
Proof.
  intros Hz. unfold reset_then_frames, mbind at 1. unfold ST_bind.
  rewrite reset_spec. change 100%nat with (99 + 1)%nat.
  assert (Hsplit : forall a b s, frames (a + b) s =
            (frames a;; frames b) s).
  { induction a as [|a IH]; intros b s.
    - reflexivity.
    - cbn [frames Nat.add]. unfold mbind, ST_bind in *.
      destruct (on_frame s) as [[[]|x] s']; [apply IH|reflexivity]. }
  rewrite Hsplit. unfold mbind at 1. unfold ST_bind.
  rewrite frames_count by (cbn; lia). cbn [frames].
  unfold mbind, ST_bind. rewrite on_frame_report; [reflexivity|cbn; lia|exact Hz].
Qed.

End FPSTimerFacts.

(** ** Traces *)

Lemma produced_app {O A} (m : ST O A) (s : O * env) (l : list effect) :
  trace (snd (snd (m s))) = trace (snd s) ++ l -> produced m s = l.
Proof. unfold produced. intros ->. apply drop_app_length. Qed.

Lemma emitted_app (ev : string) (l k : list effect) :
  emitted ev (l ++ k) = emitted ev l ++ emitted ev k.
Proof.
  induction l as [|x l IH]; [reflexivity|].
  destruct x as [a|c|img|img]; cbn; auto.
  destruct (String.eqb (event c) ev); cbn; congruence.
Qed.

Lemma part_runs_app (l k : list effect) :
  part_runs (l ++ k) = part_runs l ++ part_runs k.
Proof.
  induction l as [|x l IH]; [reflexivity|].
  destruct x; cbn; congruence.
Qed.

Lemma emitted_stdout (ev : string) (l : list effect) :
  forallb is_stdout l = true -> emitted ev l = [].
Proof.
  induction l as [|x l IH]; [reflexivity|].
  destruct x; cbn; auto; discriminate.
Qed.

Lemma part_runs_stdout (l : list effect) :
  forallb is_stdout l = true -> part_runs l = [].
Proof.
  induction l as [|x l IH]; [reflexivity|].
  destruct x; cbn; auto; discriminate.
Qed.

Section TimerOnServer.
Context `{rt : Runtime}.

(** One frame adds nothing to the trace but, at most, a report. *)
Lemma on_frame_trace (tm : FPSTimer) (e : env) :
  exists report,
    trace (snd (snd (on_frame (tm, e)))) = trace e ++ report /\
    forallb is_stdout report = true.
Proof.
  destruct (Z.eq_dec (fps_iter tm + 1) 100) as [H|H].
  - destruct (time_reading (clock e) - fps_t tm =? 0)%float eqn:Hz.
    + rewrite on_frame_zero_elapsed by assumption.
      exists []. cbn. rewrite app_nil_r. auto.
    + rewrite on_frame_report by assumption. eexists. cbn. split; reflexivity.
  - rewrite on_frame_count by assumption.
    exists []. cbn. rewrite app_nil_r. auto.
Qed.

(** What one frame does to the timer and the clock does not depend on the
    trace. *)
Lemma on_frame_ignores_trace (tm : FPSTimer) (e e' : env) :
  clock e = clock e' ->
  fst (on_frame (tm, e)) = fst (on_frame (tm, e')) /\
  fst (snd (on_frame (tm, e))) = fst (snd (on_frame (tm, e'))) /\
  clock (snd (snd (on_frame (tm, e)))) = clock (snd (snd (on_frame (tm, e')))).
Proof.
  intros Hc.
  destruct (Z.eq_dec (fps_iter tm + 1) 100) as [H|H].
  - destruct (time_reading (clock e) - fps_t tm =? 0)%float eqn:Hz.
    + rewrite (on_frame_zero_elapsed tm e) by assumption.
      rewrite (on_frame_zero_elapsed tm e') by (rewrite <- ?Hc; assumption).
      cbn. rewrite Hc. auto.
    + rewrite (on_frame_report tm e) by assumption.
      rewrite (on_frame_report tm e') by (rewrite <- ?Hc; assumption).
      cbn. rewrite Hc. auto.
  - rewrite !on_frame_count by assumption. cbn. auto.
Qed.

Lemma on_timer_trace {A} (m : ST FPSTimer A) (srv : SteeringServer) (e : env) :
  trace (snd (snd (on_timer m (srv, e)))) = trace (snd (snd (m (timer srv, e)))).
Proof.
  unfold on_timer. cbn. destruct (m (timer srv, e)) as [r [tm e']]. reflexivity.
Qed.

End TimerOnServer.

(** ** The telemetry handler, case by case *)

Section TelemetryCases.
Context `{rt : Runtime}.

Lemma record_nil (e : env) : record [] e = e.
Proof. destruct e. unfold record. cbn. rewrite app_nil_r. reflexivity. Qed.

Lemma record_record (k l : list effect) (e : env) :
  record l (record k e) = record (k ++ l) e.
Proof. unfold record. cbn. rewrite app_assoc. reflexivity. Qed.

Lemma preprocess_spec (img : ndarray) (srv : SteeringServer) (e : env) :
  preprocess img (srv, e) =
  (preprocessed srv img, (srv, record (preprocess_trace srv img) e)).
Proof.
  unfold preprocess, preprocessed, preprocess_trace. unfold_st. cbn.
  destruct (image_part srv) as [run|].
  - destruct (run img); reflexivity.
  - rewrite record_nil. reflexivity.
Qed.

Lemma predict_spec (img : ndarray) (srv : SteeringServer) (e : env) :
  predict img (srv, e) = (kpart srv img, (srv, record [KpartRun img] e)).
Proof.
  unfold predict. unfold_st. cbn. destruct (kpart srv img); reflexivity.
Qed.

(** An empty or absent payload: the manual event, then the timer. *)
Lemma telemetry_falsy (sid : string) (data : option (gmap string pyval))
    (srv : SteeringServer) (e : env) :
  truthy data = false ->
  telemetry sid data (srv, e) =
  on_timer on_frame (srv, record [SioEmit manual_call] e).
Proof. intros H. unfold telemetry. rewrite H. reflexivity. Qed.

(** A payload that does not decode: the exception leaves the handler, and
    nothing has happened. *)
Lemma telemetry_decode_error (sid : string) (d : gmap string pyval)
    (srv : SteeringServer) (e : env) (x : exn) :
  truthy (Some d) = true ->
  decode_frame d = Raise x ->
  telemetry sid (Some d) (srv, e) = (Raise x, (srv, e)).
Proof.
  intros H Hd. unfold telemetry. rewrite H.
  change (default ∅ (Some d)) with d.
  unfold mbind at 1. unfold ST_bind. unfold mbind at 1. unfold ST_bind.
  unfold lift at 1. rewrite Hd. reflexivity.
Qed.

(** A payload that decodes, with parts that return: the steer event, then
    the timer. *)
Lemma telemetry_ok (sid : string) (d : gmap string pyval)
    (srv : SteeringServer) (e : env) (fr : TelemetryFrame) (img : ndarray)
    (steering throttle : float) :
  truthy (Some d) = true ->
  decode_frame d = Ok fr ->
  preprocessed srv (image fr) = Ok img ->
  kpart srv img = Ok (steering, throttle) ->
  telemetry sid (Some d) (srv, e) =
  on_timer on_frame
    (srv,
     record (preprocess_trace srv (image fr) ++
             [KpartRun img;
              SioEmit (steer_call
                (PyFloat (steering * steering_scale srv)%float)
                (PyFloat (throttle_control srv (last_steering fr)
                            (last_throttle fr) (speed fr) throttle)))]) e).
Proof.
  intros H Hd Hp Hk. unfold telemetry. rewrite H.
  change (default ∅ (Some d)) with d.
  unfold mbind at 1. unfold ST_bind. unfold mbind at 1. unfold ST_bind.
  unfold lift at 1. rewrite Hd.
  unfold mbind at 1. unfold ST_bind. rewrite preprocess_spec, Hp.
  unfold mbind at 1. unfold ST_bind. rewrite predict_spec, Hk.
  unfold send_control. unfold_st. cbn [fst snd].
  rewrite !record_record. unfold record. cbn [clock trace].
  rewrite <- !app_assoc. reflexivity.
Qed.

(** The parts raise: the exception leaves the handler after the calls made
    so far, and the timer is not reached. *)
Lemma telemetry_preprocess_error (sid : string) (d : gmap string pyval)
    (srv : SteeringServer) (e : env) (fr : TelemetryFrame) (x : exn) :
  truthy (Some d) = true ->
  decode_frame d = Ok fr ->
  preprocessed srv (image fr) = Raise x ->
  telemetry sid (Some d) (srv, e) =
  (Raise x, (srv, record (preprocess_trace srv (image fr)) e)).
Proof.
  intros H Hd Hp. unfold telemetry. rewrite H.
  change (default ∅ (Some d)) with d.
  unfold mbind at 1. unfold ST_bind. unfold mbind at 1. unfold ST_bind.
  unfold lift at 1. rewrite Hd.
  unfold mbind at 1. unfold ST_bind. rewrite preprocess_spec, Hp. reflexivity.
Qed.

Lemma telemetry_predict_error (sid : string) (d : gmap string pyval)
    (srv : SteeringServer) (e : env) (fr : TelemetryFrame) (img : ndarray)
    (x : exn) :
  truthy (Some d) = true ->
  decode_frame d = Ok fr ->
  preprocessed srv (image fr) = Ok img ->
  kpart srv img = Raise x ->
  telemetry sid (Some d) (srv, e) =
  (Raise x, (srv, record (preprocess_trace srv (image fr) ++ [KpartRun img]) e)).
Proof.
  intros H Hd Hp Hk. unfold telemetry. rewrite H.
  change (default ∅ (Some d)) with d.
  unfold mbind at 1. unfold ST_bind. unfold mbind at 1. unfold ST_bind.
  unfold lift at 1. rewrite Hd.
  unfold mbind at 1. unfold ST_bind. rewrite preprocess_spec, Hp.
  unfold mbind at 1. unfold ST_bind. rewrite predict_spec, Hk.
  rewrite record_record. reflexivity.
Qed.

(** The trace after the timer's frame, from a world that recorded [l]. *)
Lemma on_timer_frame_produced (srv : SteeringServer) (e : env) (l : list effect) :
  exists report,
    trace (snd (snd (on_timer on_frame (srv, record l e)))) =
      trace e ++ l ++ report /\
    forallb is_stdout report = true.
Proof.
  rewrite on_timer_trace.
  destruct (on_frame_trace (timer srv) (record l e)) as (report & Ht & Hr).
  exists report. split; [|exact Hr].
  rewrite Ht. cbn. rewrite app_assoc. reflexivity.
Qed.

End TelemetryCases.

(** ** Decoding *)

Section Decoding.
Context `{rt : Runtime}.

(** A payload decodes only if every key is there and every field converts. *)
Lemma decode_frame_ok_inv (d : gmap string pyval) (fr : TelemetryFrame) :
  decode_frame d = Ok fr ->
  exists v1 v2 v3 v4 b,
    d !! "steering_angle" = Some v1 /\ float_of v1 = Ok (last_steering fr) /\
    d !! "throttle" = Some v2 /\ float_of v2 = Ok (last_throttle fr) /\
    d !! "speed" = Some v3 /\ float_of v3 = Ok (speed fr) /\
    d !! "image" = Some v4 /\ b64decode v4 = Ok b /\ image_open b = Ok (image fr).
Proof.
  unfold decode_frame, getitem. unfold mbind, result_bind, mret, result_ret.
  destruct (d !! "steering_angle") as [v1|]; [|discriminate].
  destruct (float_of v1) as [f1|] eqn:E1; [|discriminate].
  destruct (d !! "throttle") as [v2|]; [|discriminate].
  destruct (float_of v2) as [f2|] eqn:E2; [|discriminate].
  destruct (d !! "speed") as [v3|]; [|discriminate].
  destruct (float_of v3) as [f3|] eqn:E3; [|discriminate].
  destruct (d !! "image") as [v4|]; [|discriminate].
  destruct (b64decode v4) as [b|] eqn:E4; [|discriminate].
  destruct (image_open b) as [img|] eqn:E5; [|discriminate].
  intros [= <-]. cbn. exists v1, v2, v3, v4, b. auto 10.
Qed.

Lemma malformed_raises (d : gmap string pyval) :
  malformed d -> exists x, decode_frame d = Raise x.
Proof.
  intros Hm. destruct (decode_frame d) as [fr|x] eqn:E; [exfalso|eauto].
  destruct (decode_frame_ok_inv d fr E)
    as (v1 & v2 & v3 & v4 & b & K1 & F1 & K2 & F2 & K3 & F3 & K4 & B & I).
  destruct Hm as [k Hk Hn|k v x Hk Hv Hf|v x Hv Hb|v b' x Hv Hb Hi].
  - repeat (apply elem_of_cons in Hk as [->|Hk]; [congruence|]).
    inversion Hk.
  - repeat (apply elem_of_cons in Hk as [->|Hk]; [congruence|]).
    inversion Hk.
  - congruence.
  - congruence.
Qed.

Lemma raises_malformed (d : gmap string pyval) (x : exn) :
  decode_frame d = Raise x -> malformed d.
Proof.
  unfold decode_frame, getitem. unfold mbind, result_bind, mret, result_ret.
  destruct (d !! "steering_angle") as [v1|] eqn:K1;
    [|intros _; apply (missing_key d "steering_angle"); [set_solver|exact K1]].
  destruct (float_of v1) as [f1|x1] eqn:E1;
    [|intros _; apply (non_numeric d "steering_angle" v1 x1); [set_solver|auto..]].
  destruct (d !! "throttle") as [v2|] eqn:K2;
    [|intros _; apply (missing_key d "throttle"); [set_solver|exact K2]].
  destruct (float_of v2) as [f2|x2] eqn:E2;
    [|intros _; apply (non_numeric d "throttle" v2 x2); [set_solver|auto..]].
  destruct (d !! "speed") as [v3|] eqn:K3;
    [|intros _; apply (missing_key d "speed"); [set_solver|exact K3]].
  destruct (float_of v3) as [f3|x3] eqn:E3;
    [|intros _; apply (non_numeric d "speed" v3 x3); [set_solver|auto..]].
  destruct (d !! "image") as [v4|] eqn:K4;
    [|intros _; apply (missing_key d "image"); [set_solver|exact K4]].
  destruct (b64decode v4) as [b|x4] eqn:E4;
    [|intros _; exact (bad_base64 d v4 x4 K4 E4)].
  destruct (image_open b) as [img|x5] eqn:E5;
    [discriminate|intros _; exact (bad_image d v4 b x5 K4 E4 E5)].
Qed.

End Decoding.

(** ** Frame conditions: the configuration and the trace *)

Create HintDb frame discriminated.

Section Frames.
Context `{rt : Runtime}.

Lemma preserves_bind {A B} (m : ST SteeringServer A) (k : A -> ST SteeringServer B) :
  preserves_config m -> (forall a, preserves_config (k a)) ->
  preserves_config (m ≫= k).
Proof.
  intros Hm Hk s. unfold mbind, ST_bind. specialize (Hm s).
  destruct (m s) as [[a|x] s']; cbn in *; [|exact Hm].
  rewrite (Hk a s'). exact Hm.
Qed.

Lemma preserves_ret {A} (a : A) : preserves_config (mret a).
Proof. intros s. reflexivity. Qed.

Lemma preserves_lift {A} (r : result A) : preserves_config (lift r).
Proof. intros s. reflexivity. Qed.

Lemma preserves_get : preserves_config get_self.
Proof. intros s. reflexivity. Qed.

Lemma preserves_log (x : effect) : preserves_config (log x).
Proof. intros s. reflexivity. Qed.

(** Whatever is done to the timer, the configuration stays. *)
Lemma preserves_on_timer {A} (m : ST FPSTimer A) : preserves_config (on_timer m).
Proof.
  intros [srv e]. unfold on_timer. cbn.
  destruct (m (timer srv, e)) as [r [tm e']]. reflexivity.
Qed.

Lemma preserves_send_control (a b : pyval) : preserves_config (send_control a b).
Proof. apply preserves_log. Qed.

Lemma preserves_preprocess (img : ndarray) : preserves_config (preprocess img).
Proof.
  unfold preprocess. apply preserves_bind; [apply preserves_get|].
  intros self. destruct (image_part self).
  - apply preserves_bind; [apply preserves_log|intros; apply preserves_lift].
  - apply preserves_ret.
Qed.

Lemma preserves_predict (img : ndarray) : preserves_config (predict img).
Proof.
  unfold predict. apply preserves_bind; [apply preserves_get|].
  intros self. apply preserves_bind; [apply preserves_log|intros; apply preserves_lift].
Qed.

Hint Resolve preserves_ret preserves_lift preserves_get preserves_log
  preserves_on_timer preserves_send_control preserves_preprocess
  preserves_predict : frame.

Lemma preserves_telemetry (sid : string) (payload : option (gmap string pyval)) :
  preserves_config (telemetry sid payload).
Proof.
  unfold telemetry. apply preserves_bind; [|auto with frame].
  destruct (truthy payload); [|apply preserves_log].
  apply preserves_bind; [auto with frame|intros fr].
  apply preserves_bind; [auto with frame|intros img].
  apply preserves_bind; [auto with frame|intros [st th]].
  apply preserves_bind; auto with frame.
Qed.

Lemma preserves_connect (sid : string) (environ : gmap string string) :
  preserves_config (connect sid environ).
Proof.
  unfold connect, py_print.
  apply preserves_bind; [auto with frame|intros _].
  apply preserves_bind; auto with frame.
Qed.

Lemma preserves_run_call (c : call) : preserves_config (run_call c).
Proof.
  destruct c; cbn [run_call].
  - apply preserves_connect.
  - apply preserves_telemetry.
  - apply preserves_bind; auto with frame.
  - apply preserves_send_control.
Qed.

Lemma run_calls_config (cs : list call) (s : SteeringServer * env) :
  config (fst (run_calls cs s)) = config (fst s).
Proof.
  revert s. induction cs as [|c cs IH]; intros s; [reflexivity|].
  cbn [run_calls]. rewrite IH. apply preserves_run_call.
Qed.

(** Every method only appends to the trace. *)
Lemma appends_bind {O A B} (m : ST O A) (k : A -> ST O B) :
  appends m -> (forall a, appends (k a)) -> appends (m ≫= k).
Proof.
  intros Hm Hk s. unfold mbind, ST_bind. destruct (Hm s) as [l Hl].
  destruct (m s) as [[a|x] s']; cbn in *; [|eauto].
  destruct (Hk a s') as [l' Hl']. exists (l ++ l').
  rewrite Hl', Hl, app_assoc. reflexivity.
Qed.

Lemma appends_pure {O A} (m : ST O A) :
  (forall s, trace (snd (snd (m s))) = trace (snd s)) -> appends m.
Proof. intros H s. exists []. rewrite H, app_nil_r. reflexivity. Qed.

Lemma appends_log {O} (x : effect) : appends (log (O := O) x).
Proof. intros s. exists [x]. reflexivity. Qed.

Lemma appends_on_frame : appends on_frame.
Proof.
  intros [tm e]. destruct (on_frame_trace tm e) as (report & H & _). eauto.
Qed.

Lemma appends_on_timer {A} (m : ST FPSTimer A) : appends m -> appends (on_timer m).
Proof.
  intros H [srv e]. rewrite on_timer_trace. apply (H (timer srv, e)).
Qed.

Lemma appends_telemetry (sid : string) (payload : option (gmap string pyval)) :
  appends (telemetry sid payload).
Proof.
  unfold telemetry. apply appends_bind;
    [|intros; apply appends_on_timer, appends_on_frame].
  destruct (truthy payload); [|apply appends_log].
  apply appends_bind; [apply appends_pure; reflexivity|intros fr].
  apply appends_bind; [|intros img].
  { intros [srv e]. rewrite preprocess_spec. eexists. reflexivity. }
  apply appends_bind; [|intros [st th]].
  { intros [srv e]. rewrite predict_spec. eexists. reflexivity. }
  apply appends_bind; [apply appends_pure; reflexivity|intros self].
  apply appends_log.
Qed.

Lemma appends_connect (sid : string) (environ : gmap string string) :
  appends (connect sid environ).
Proof.
  unfold connect. apply appends_bind; [apply appends_log|intros _].
  apply appends_bind; [|intros; apply appends_log].
  apply appends_on_timer, appends_pure. reflexivity.
Qed.

Lemma appends_run_call (c : call) : appends (run_call c).
Proof.
  destruct c; cbn [run_call].
  - apply appends_connect.
  - apply appends_telemetry.
  - apply appends_pure. reflexivity.
  - apply appends_log.
Qed.

Lemma run_calls_trace (cs : list call) (s : SteeringServer * env) :
  exists l, trace (snd (run_calls cs s)) = trace (snd s) ++ l.
Proof.
  revert s. induction cs as [|c cs IH]; intros s.
  - exists []. cbn. rewrite app_nil_r. reflexivity.
  - cbn [run_calls]. destruct (IH (snd (run_call c s))) as [l Hl].
    destruct (appends_run_call c s) as [l' Hl'].
    exists (l' ++ l). rewrite Hl, Hl', app_assoc. reflexivity.
Qed.

Lemma recipients_broadcast (connected : list string) (c : emit_call) :
  room c = None -> skip_sid c = PyBool true -> recipients connected c = connected.
Proof.
  unfold recipients. intros -> ->. cbn.
  induction connected as [|x l IH]; cbn; congruence.
Qed.

End Frames.

(** ** The handlers' contracts *)

Section Handlers.
Context `{rt : Runtime}.

(** C1 (as amended): a non-empty payload that is malformed (a required key
    missing, a scalar field not numeric, or image data that does not decode)
    makes [telemetry] raise the decoding exception to its caller.  No event
    is emitted, no part is called, the timer is not advanced, and the server
    and the world are left exactly as they were, so the calls that follow
    run as if the frame had never arrived. *)
Theorem telemetry_malformed_raises (sid : string) (d : gmap string pyval)
    (srv : SteeringServer) (e : env) (cs : list call) :
  truthy (Some d) = true ->
  malformed d ->
  exists x,
    telemetry sid (Some d) (srv, e) = (Raise x, (srv, e)) /\
    produced (telemetry sid (Some d)) (srv, e) = [] /\
    run_calls (CallTelemetry sid (Some d) :: cs) (srv, e) = run_calls cs (srv, e).
Proof.
  intros Ht Hm. destruct (malformed_raises d Hm) as [x Hx]. exists x.
  pose proof (telemetry_decode_error sid d srv e x Ht Hx) as H.
  split; [exact H|split].
  - apply produced_app. rewrite H. cbn. rewrite app_nil_r. reflexivity.
  - cbn [run_calls run_call]. rewrite H. reflexivity.
Qed.

(** C2 (as amended): every [send_control] emits one "steer" event by a call
    that names no recipient and passes [skip_sid=True], the addressing of the
    "manual" event.  The call does not depend on the connection the
    telemetry came from, and under python-socketio's delivery rule every
    connected client, the originator included, receives it. *)
Theorem send_control_addressing (steering_angle throttle : pyval)
    (srv : SteeringServer) (e : env) :
  send_control steering_angle throttle (srv, e) =
    (Ok tt, (srv, record [SioEmit (steer_call steering_angle throttle)] e)) /\
  room (steer_call steering_angle throttle) = None /\
  skip_sid (steer_call steering_angle throttle) = PyBool true /\
  room manual_call = None /\
  skip_sid manual_call = PyBool true /\
  (forall connected : list string,
     recipients connected (steer_call steering_angle throttle) = connected) /\
  (forall (sid sid' : string) (payload : option (gmap string pyval)),
     telemetry sid payload (srv, e) = telemetry sid' payload (srv, e)).
Proof.
  repeat split. intros connected. apply recipients_broadcast; reflexivity.
Qed.

(** C3 (as amended): an empty or absent payload makes [telemetry] emit
    exactly one "manual" event with the empty payload, by a call that names
    no recipient and passes [skip_sid=True]; under python-socketio's
    delivery rule every connected client, the sender included, receives it.
    No "steer" event is emitted and neither part is called. *)
Theorem telemetry_manual_event (sid : string)
    (payload : option (gmap string pyval)) (srv : SteeringServer) (e : env) :
  truthy payload = false ->
  (exists report,
     produced (telemetry sid payload) (srv, e) = SioEmit manual_call :: report /\
     forallb is_stdout report = true) /\
  emitted "manual" (produced (telemetry sid payload) (srv, e)) = [manual_call] /\
  emitted "steer" (produced (telemetry sid payload) (srv, e)) = [] /\
  part_runs (produced (telemetry sid payload) (srv, e)) = [] /\
  data manual_call = ∅ /\
  room manual_call = None /\
  skip_sid manual_call = PyBool true /\
  (forall connected : list string, recipients connected manual_call = connected).
Proof.
  intros H.
  destruct (on_timer_frame_produced srv e [SioEmit manual_call])
    as (report & Ht & Hr).
  assert (Hp : produced (telemetry sid payload) (srv, e) =
               SioEmit manual_call :: report).
  { apply produced_app. rewrite (telemetry_falsy sid payload srv e H). exact Ht. }
  rewrite Hp. split; [eauto|].
  change (SioEmit manual_call :: report) with ([SioEmit manual_call] ++ report).
  rewrite emitted_app, emitted_app, part_runs_app.
  rewrite !(emitted_stdout _ report Hr), (part_runs_stdout report Hr).
  repeat split. intros connected. apply recipients_broadcast; reflexivity.
Qed.

(** C5: a non-empty payload that decodes, with parts that return, goes
    through decode, preprocess, predict, govern and emit in that order: the
    filter part (when there is one) runs on the decoded image, the model on
    what the filter returned, and one "steer" event carries
    [steering * steering_scale] and
    [throttle_control(last_steering, last_throttle, speed, throttle)] on the
    model's raw throttle, both as their [__str__]. *)
Theorem telemetry_pipeline (sid : string) (d : gmap string pyval)
    (srv : SteeringServer) (e : env) (fr : TelemetryFrame) (img : ndarray)
    (steering throttle : float) :
  truthy (Some d) = true ->
  decode_frame d = Ok fr ->
  preprocessed srv (image fr) = Ok img ->
  kpart srv img = Ok (steering, throttle) ->
  let final_steering := (steering * steering_scale srv)%float in
  let governed :=
    throttle_control srv (last_steering fr) (last_throttle fr) (speed fr) throttle in
  let sent := steer_call (PyFloat final_steering) (PyFloat governed) in
  (exists report,
     produced (telemetry sid (Some d)) (srv, e) =
       preprocess_trace srv (image fr) ++ [KpartRun img; SioEmit sent] ++ report /\
     forallb is_stdout report = true) /\
  emitted "steer" (produced (telemetry sid (Some d)) (srv, e)) = [sent] /\
  event sent = "steer" /\
  data sent = {[ "steering_angle" := float_str final_steering;
                 "throttle" := float_str governed ]}.
Proof.
  intros Ht Hd Hp Hk final_steering governed sent.
  destruct (on_timer_frame_produced srv e
              (preprocess_trace srv (image fr) ++ [KpartRun img; SioEmit sent]))
    as (report & Htr & Hr).
  assert (H : produced (telemetry sid (Some d)) (srv, e) =
              preprocess_trace srv (image fr) ++ [KpartRun img; SioEmit sent] ++ report).
  { apply produced_app.
    rewrite (telemetry_ok sid d srv e fr img steering throttle Ht Hd Hp Hk).
    fold final_steering governed sent. rewrite Htr. rewrite <- !app_assoc. reflexivity. }
  rewrite H. split; [eauto|]. split; [|split; reflexivity].
  rewrite !emitted_app, (emitted_stdout _ report Hr), app_nil_r.
  unfold preprocess_trace. destruct (image_part srv); reflexivity.
Qed.

Lemma run_calls_app (cs cs' : list call) (s : SteeringServer * env) :
  run_calls (cs ++ cs') s = run_calls cs' (run_calls cs s).
Proof.
  revert s. induction cs as [|c cs IH]; intros s; [reflexivity|].
  cbn [app run_calls]. apply IH.
Qed.

(** C6 (as amended): [connect] returns after printing, resetting the
    server's one timer and sending exactly one "steer" event, whose payload
    is [{steering_angle: "0", throttle: "0"}].  The timer is the server's,
    shared by all connections: after [connect] its counter is 0 and its
    start time is a fresh clock reading, whatever was counted before and
    whichever calls, from whichever connections, came before.  [connect]
    calls no part and leaves the configuration alone, and in a session that
    begins with it the zero command is the first event emitted. *)
Theorem connect_resets_and_sends_zero (sid : string)
    (environ : gmap string string) (srv : SteeringServer) (e : env)
    (cs : list call) :
  fst (connect sid environ (srv, e)) = Ok tt /\
  timer (fst (snd (connect sid environ (srv, e)))) =
    {| fps_t := time_reading (clock e); fps_iter := 0 |} /\
  config (fst (snd (connect sid environ (srv, e)))) = config srv /\
  clock (snd (snd (connect sid environ (srv, e)))) = S (clock e) /\
  produced (connect sid environ) (srv, e) =
    [Stdout [PyStr "connect "; PyStr sid];
     SioEmit (steer_call (PyInt 0) (PyInt 0))] /\
  emitted "steer" (produced (connect sid environ) (srv, e)) =
    [steer_call (PyInt 0) (PyInt 0)] /\
  part_runs (produced (connect sid environ) (srv, e)) = [] /\
  data (steer_call (PyInt 0) (PyInt 0)) =
    {[ "steering_angle" := "0"; "throttle" := "0" ]} /\
  fps_iter (timer (fst (run_calls (cs ++ [CallConnect sid environ]) (srv, e)))) = 0 /\
  exists later,
    emits (drop (length (trace e))
             (trace (snd (run_calls (CallConnect sid environ :: cs) (srv, e))))) =
    steer_call (PyInt 0) (PyInt 0) :: later.
Proof.
  assert (H : forall srv0 e0, connect sid environ (srv0, e0) =
    (Ok tt,
     (set_timer {| fps_t := time_reading (clock e0); fps_iter := 0 |} srv0,
      {| clock := S (clock e0);
         trace := trace e0 ++ [Stdout [PyStr "connect "; PyStr sid];
                               SioEmit (steer_call (PyInt 0) (PyInt 0))] |}))).
  { intros srv0 e0. unfold connect, send_control, on_timer. unfold_st.
    cbn [fst snd]. rewrite reset_spec. cbn. rewrite <- app_assoc. reflexivity. }
  assert (Hp : produced (connect sid environ) (srv, e) =
    [Stdout [PyStr "connect "; PyStr sid];
     SioEmit (steer_call (PyInt 0) (PyInt 0))]).
  { apply produced_app. rewrite H. reflexivity. }
  rewrite Hp, H. cbn [fst snd timer set_timer clock].
  do 8 (split; [reflexivity|]). split.
  - rewrite run_calls_app. cbn [run_calls run_call].
    destruct (run_calls cs (srv, e)) as [srv1 e1]. rewrite H. reflexivity.
  - cbn [run_calls run_call]. rewrite H. cbn [snd].
    match goal with |- context [run_calls cs ?s] =>
      destruct (run_calls_trace cs s) as [later Hl] end.
    exists (emits later). rewrite Hl. cbn [snd trace].
    rewrite <- app_assoc, drop_app_length. reflexivity.
Qed.

(** C8: with no image filter configured ([image_part is None]), the only
    part called on a decoded frame is the model, and the buffer it is given
    is the decoded image itself. *)
Theorem telemetry_no_filter_identity (sid : string) (d : gmap string pyval)
    (srv : SteeringServer) (e : env) (fr : TelemetryFrame) :
  image_part srv = None ->
  truthy (Some d) = true ->
  decode_frame d = Ok fr ->
  preprocessed srv (image fr) = Ok (image fr) /\
  part_runs (produced (telemetry sid (Some d)) (srv, e)) = [KpartRun (image fr)].
Proof.
  intros Hn Ht Hd.
  assert (Hp : preprocessed srv (image fr) = Ok (image fr))
    by (unfold preprocessed; rewrite Hn; reflexivity).
  assert (Hpt : preprocess_trace srv (image fr) = [])
    by (unfold preprocess_trace; rewrite Hn; reflexivity).
  split; [exact Hp|].
  destruct (kpart srv (image fr)) as [[st th]|x] eqn:Hk.
  - destruct (on_timer_frame_produced srv e
                (preprocess_trace srv (image fr) ++
                 [KpartRun (image fr);
                  SioEmit (steer_call (PyFloat (st * steering_scale srv)%float)
                    (PyFloat (throttle_control srv (last_steering fr)
                                (last_throttle fr) (speed fr) th)))]))
      as (report & Htr & Hr).
    erewrite produced_app;
      [|rewrite (telemetry_ok sid d srv e fr (image fr) st th Ht Hd Hp Hk);
        exact Htr].
    rewrite Hpt, !part_runs_app, (part_runs_stdout report Hr). reflexivity.
  - erewrite produced_app;
      [|rewrite (telemetry_predict_error sid d srv e fr (image fr) x Ht Hd Hp Hk);
        reflexivity].
    rewrite Hpt. reflexivity.
Qed.

(** C9: [top_speed] and [steering_scale] keep the values given to the
    constructor through every sequence of [connect], [telemetry],
    [throttle_control] and [send_control] calls, also the ones that
    raise. *)
Theorem config_never_mutated (kp : ndarray -> result (float * float))
    (ts : float) (ip : option (ndarray -> result ndarray)) (sc : float)
    (e : env) (cs : list call) :
  top_speed (fst (SteeringServer_init kp ts ip sc e)) = ts /\
  steering_scale (fst (SteeringServer_init kp ts ip sc e)) = sc /\
  top_speed (fst (run_calls cs (SteeringServer_init kp ts ip sc e))) = ts /\
  steering_scale (fst (run_calls cs (SteeringServer_init kp ts ip sc e))) = sc.
Proof.
  pose proof (run_calls_config cs (SteeringServer_init kp ts ip sc e)) as H.
  unfold config in H. injection H as _ _ Hs Ht.
  rewrite Hs, Ht. repeat split.
Qed.

(** C10 (as amended): a [telemetry] call that reaches the end of the handler
    (an empty or absent payload, or a payload that decodes and whose parts
    return) makes exactly one [on_frame] call, on the timer and the clock as
    they were when the handler began; so manual frames count toward the
    100-frame window as processed frames do.  A call that raises before the
    end (the payload does not decode, the filter raises or the model
    raises) raises that exception and leaves the timer, the whole server
    and the clock untouched. *)
Theorem telemetry_counts_one_frame (sid : string)
    (payload : option (gmap string pyval)) (srv : SteeringServer) (e : env) :
  ((truthy payload = false \/
    exists d fr img steering throttle,
      payload = Some d /\ truthy (Some d) = true /\ decode_frame d = Ok fr /\
      preprocessed srv (image fr) = Ok img /\
      kpart srv img = Ok (steering, throttle)) ->
   (exists l, telemetry sid payload (srv, e) = on_timer on_frame (srv, record l e)) /\
   fst (telemetry sid payload (srv, e)) = fst (on_frame (timer srv, e)) /\
   timer (fst (snd (telemetry sid payload (srv, e)))) =
     fst (snd (on_frame (timer srv, e))) /\
   clock (snd (snd (telemetry sid payload (srv, e)))) =
     clock (snd (snd (on_frame (timer srv, e))))) /\
  (forall d x,
     payload = Some d -> truthy (Some d) = true ->
     (decode_frame d = Raise x \/
      (exists fr, decode_frame d = Ok fr /\
                  preprocessed srv (image fr) = Raise x) \/
      (exists fr img, decode_frame d = Ok fr /\
                      preprocessed srv (image fr) = Ok img /\
                      kpart srv img = Raise x)) ->
     fst (telemetry sid payload (srv, e)) = Raise x /\
     timer (fst (snd (telemetry sid payload (srv, e)))) = timer srv /\
     fst (snd (telemetry sid payload (srv, e))) = srv /\
     clock (snd (snd (telemetry sid payload (srv, e)))) = clock e).
Proof.
  split.
  - intros H.
    assert (Hl : exists l, telemetry sid payload (srv, e) =
                           on_timer on_frame (srv, record l e)).
    { destruct H as [H|(d & fr & img & st & th & -> & Ht & Hd & Hp & Hk)].
      - eexists. apply telemetry_falsy, H.
      - eexists. apply (telemetry_ok sid d srv e fr img st th); assumption. }
    split; [exact Hl|]. destruct Hl as [l ->].
    destruct (on_frame_ignores_trace (timer srv) (record l e) e eq_refl)
      as (Hr & Htm & Hc).
    unfold on_timer. cbn [fst snd].
    destruct (on_frame (timer srv, record l e)) as [r [tm e']].
    cbn in *. auto.
  - intros d x -> Ht [Hd|[(fr & Hd & Hp)|(fr & img & Hd & Hp & Hk)]].
    + rewrite (telemetry_decode_error sid d srv e x Ht Hd). cbn. auto.
    + rewrite (telemetry_preprocess_error sid d srv e fr x Ht Hd Hp). cbn. auto.
    + rewrite (telemetry_predict_error sid d srv e fr img x Ht Hd Hp Hk).
      cbn. auto.
Qed.

End Handlers.

(** ** The contracts on concrete sessions

    The examples run on [ticking_runtime] unless they say otherwise. *)

#[local] Existing Instance ticking_runtime.

Lemma throttle_control_governs_witness :
  throttle_control (fst example_server) 0 0 1 1 = 0.3%float /\
  throttle_control (fst example_server) 0 0 4 1 = 0.0%float.
Proof.
  split.
  - apply (proj1 (throttle_control_governs (fst example_server) 0 0 1 1)).
    reflexivity.
  - apply (proj1 (proj2 (throttle_control_governs (fst example_server) 0 0 4 1))).
    reflexivity.
Defined.

(** C1, the claim as stated fails: a payload without its [speed] key makes
    the handler raise [KeyError]; the frame is not dropped silently. *)
Lemma telemetry_raises_on_missing_speed :
  telemetry "a" (Some payload_without_speed) example_server =
  (Raise (KeyError "speed"), example_server).
Proof. vm_compute. reflexivity. Qed.

Lemma telemetry_malformed_raises_witness :
  truthy (Some payload_without_speed) = true /\
  malformed payload_without_speed /\
  exists x,
    telemetry "a" (Some payload_without_speed) example_server =
      (Raise x, example_server) /\
    produced (telemetry "a" (Some payload_without_speed)) example_server = [] /\
    run_calls [CallTelemetry "a" (Some payload_without_speed);
               CallTelemetry "a" (Some example_payload)] example_server =
    run_calls [CallTelemetry "a" (Some example_payload)] example_server.
Proof.
  assert (Ht : truthy (Some payload_without_speed) = true)
    by (vm_compute; reflexivity).
  assert (Hm : malformed payload_without_speed).
  { apply (missing_key payload_without_speed "speed").
    - do 2 apply list_elem_of_further. apply list_elem_of_here.
    - vm_compute. reflexivity. }
  exact (conj Ht (conj Hm
    (telemetry_malformed_raises "a" payload_without_speed
       (fst example_server) (snd example_server)
       [CallTelemetry "a" (Some example_payload)] Ht Hm))).
Defined.

(** C2, the claim as stated fails: with two clients connected, the "steer"
    event answering a frame of client "a" is delivered to "b" as well under
    python-socketio's rule; and no delivery rule at all, being a function of
    the call's arguments, can send each frame's answer to its sender only. *)
Lemma steer_not_addressed_to_sender :
  map (recipients ["a"; "b"])
    (emitted "steer" (produced (telemetry "a" (Some example_payload)) example_server))
    = [["a"; "b"]] /\
  ~ exists deliver : list string -> emit_call -> list string,
      forall sid : string, sid ∈ ["a"; "b"] ->
        map (deliver ["a"; "b"])
          (emitted "steer"
             (produced (telemetry sid (Some example_payload)) example_server))
        = [[sid]].
Proof.
  split; [vm_compute; reflexivity|].
  intros [deliver H].
  pose proof (H "a" (list_elem_of_here _ _)) as Ha.
  pose proof (H "b" (list_elem_of_further _ _ _ (list_elem_of_here _ _))) as Hb.
  change (telemetry "b") with (telemetry "a") in Hb.
  rewrite Ha in Hb. discriminate.
Qed.

(** C3, the claim as stated fails: with two clients connected, the "manual"
    event caused by client "a" is delivered to "a" too under
    python-socketio's rule; and no delivery rule at all, being a function of
    the call's arguments, can leave out the sender of each frame. *)
Lemma manual_not_all_but_sender :
  map (recipients ["a"; "b"])
    (emitted "manual" (produced (telemetry "a" None) example_server))
    = [["a"; "b"]] /\
  ~ exists deliver : list string -> emit_call -> list string,
      forall sid : string, sid ∈ ["a"; "b"] ->
        map (deliver ["a"; "b"])
          (emitted "manual" (produced (telemetry sid None) example_server))
        = [List.filter (fun x => negb (String.eqb x sid)) ["a"; "b"]].
Proof.
  split; [vm_compute; reflexivity|].
  intros [deliver H].
  pose proof (H "a" (list_elem_of_here _ _)) as Ha.
  pose proof (H "b" (list_elem_of_further _ _ _ (list_elem_of_here _ _))) as Hb.
  change (telemetry "b") with (telemetry "a") in Hb.
  rewrite Ha in Hb. discriminate.
Qed.

Lemma telemetry_manual_event_witness :
  truthy None = false /\
  emitted "manual" (produced (telemetry "a" None) example_server) = [manual_call] /\
  emitted "steer" (produced (telemetry "a" None) example_server) = [] /\
  part_runs (produced (telemetry "a" None) example_server) = [].
Proof.
  assert (Ht : truthy None = false) by reflexivity.
  pose proof (telemetry_manual_event "a" None (fst example_server)
                (snd example_server) Ht) as (_ & Hm & Hs & Hp & _).
  exact (conj Ht (conj Hm (conj Hs Hp))).
Defined.

Lemma telemetry_pipeline_witness :
  truthy (Some example_payload) = true /\
  decode_frame example_payload = Ok example_frame /\
  preprocessed (fst example_server) example_image = Ok example_image /\
  kpart (fst example_server) example_image = Ok (0.5%float, 1.0%float) /\
  emitted "steer" (produced (telemetry "a" (Some example_payload)) example_server)
    = [steer_call (PyFloat 0.5) (PyFloat 0.3)] /\
  data (steer_call (PyFloat 0.5) (PyFloat 0.3)) =
    {[ "steering_angle" := "0.5"; "throttle" := "0.3" ]}.
Proof.
  assert (Ht : truthy (Some example_payload) = true) by (vm_compute; reflexivity).
  assert (Hd : decode_frame example_payload = Ok example_frame)
    by (vm_compute; reflexivity).
  assert (Hp : preprocessed (fst example_server) (image example_frame) =
               Ok example_image) by reflexivity.
  assert (Hk : kpart (fst example_server) example_image =
               Ok (0.5%float, 1.0%float)) by reflexivity.
  pose proof (telemetry_pipeline "a" example_payload (fst example_server)
                (snd example_server) example_frame example_image
                0.5%float 1.0%float Ht Hd Hp Hk) as (_ & He & _ & Hdata).
  exact (conj Ht (conj Hd (conj Hp (conj Hk (conj He Hdata))))).
Defined.

Lemma telemetry_no_filter_identity_witness :
  image_part (fst example_server) = None /\
  truthy (Some example_payload) = true /\
  decode_frame example_payload = Ok example_frame /\
  part_runs (produced (telemetry "a" (Some example_payload)) example_server)
    = [KpartRun example_image].
Proof.
  assert (Hn : image_part (fst example_server) = None) by reflexivity.
  assert (Ht : truthy (Some example_payload) = true) by (vm_compute; reflexivity).
  assert (Hd : decode_frame example_payload = Ok example_frame)
    by (vm_compute; reflexivity).
  exact (conj Hn (conj Ht (conj Hd
    (proj2 (telemetry_no_filter_identity "a" example_payload
              (fst example_server) (snd example_server) example_frame
              Hn Ht Hd))))).
Defined.

(** C10, the claim as stated fails: a frame whose payload lacks [speed]
    leaves the counter at 0, where one [on_frame] call makes it 1. *)
Lemma telemetry_malformed_skips_timer :
  fps_iter (timer (fst (snd (telemetry "a" (Some payload_without_speed)
                               example_server)))) = 0 /\
  fps_iter (fst (snd (on_frame (timer (fst example_server), snd example_server))))
    = 1.
Proof. vm_compute. split; reflexivity. Qed.

Lemma telemetry_counts_one_frame_witness :
  truthy None = false /\
  timer (fst (snd (telemetry "a" None example_server))) =
    fst (snd (on_frame (timer (fst example_server), snd example_server))) /\
  fps_iter (timer (fst (snd (telemetry "a" None example_server)))) = 1 /\
  truthy (Some payload_without_speed) = true /\
  decode_frame payload_without_speed = Raise (KeyError "speed") /\
  timer (fst (snd (telemetry "a" (Some payload_without_speed) example_server))) =
    timer (fst example_server).
Proof.
  assert (Ht : truthy None = false) by reflexivity.
  pose proof (proj1 (telemetry_counts_one_frame "a" None (fst example_server)
                       (snd example_server)) (or_introl Ht)) as (_ & _ & Htm & _).
  assert (Ht' : truthy (Some payload_without_speed) = true)
    by (vm_compute; reflexivity).
  assert (Hd : decode_frame payload_without_speed = Raise (KeyError "speed"))
    by (vm_compute; reflexivity).
  pose proof (proj2 (telemetry_counts_one_frame "a" (Some payload_without_speed)
                       (fst example_server) (snd example_server))
                payload_without_speed (KeyError "speed") eq_refl Ht'
                (or_introl Hd)) as (_ & Htm' & _).
  split; [exact Ht|split; [exact Htm|split; [reflexivity|]]].
  split; [exact Ht'|split; [exact Hd|exact Htm']].
Defined.

(** C6, the claim as stated fails: there is no tracker of a session's own.
    The 50 frames counted for connection "a" are forgotten when connection
    "b" connects, and the next frame of "a" is counted as the first. *)
Lemma connect_resets_shared_timer :
  fps_iter (timer (fst (run_calls
    (CallConnect "a" ∅ :: manual_frames (repeat "a" 50)) example_server))) = 50 /\
  fps_iter (timer (fst (run_calls
    (CallConnect "a" ∅ :: manual_frames (repeat "a" 50) ++ [CallConnect "b" ∅])
    example_server))) = 0 /\
  fps_iter (timer (fst (run_calls
    (CallConnect "a" ∅ :: manual_frames (repeat "a" 50) ++
     [CallConnect "b" ∅; CallTelemetry "a" None])
    example_server))) = 1.
Proof. vm_compute. repeat split; reflexivity. Qed.

(** C7 at a clock that has not moved: after a reset, the 100th frame
    divides by a zero elapsed time and raises; nothing is reported, the
    counter stays at 100, and no later frame ever reports, the counter never
    being 100 again. *)
Theorem hundred_frames_on_frozen_clock :
  reset_then_frames (rt := frozen_runtime) 99
      (fst (FPSTimer_init (rt := frozen_runtime) example_env), example_env) =
    (Ok tt, ({| fps_t := 1000; fps_iter := 99 |}, {| clock := 1; trace := [] |})) /\
  reset_then_frames (rt := frozen_runtime) 100
      (fst (FPSTimer_init (rt := frozen_runtime) example_env), example_env) =
    (Raise ZeroDivisionError,
     ({| fps_t := 1000; fps_iter := 100 |}, {| clock := 2; trace := [] |})) /\
  forall n : nat,
    frames (rt := frozen_runtime) n
      ({| fps_t := 1000; fps_iter := 100 |}, {| clock := 2; trace := [] |}) =
    (Ok tt, ({| fps_t := 1000; fps_iter := 100 + Z.of_nat n |},
             {| clock := 2; trace := [] |})).
Proof.
  split; [vm_compute; reflexivity|]. split; [vm_compute; reflexivity|].
  intros n. rewrite (frames_stuck (rt := frozen_runtime)) by (cbn; lia).
  reflexivity.
Qed.

(** The same hundred frames on a clock that moves: one report, of 100 over
    the second that passed. *)
Example hundred_frames_on_ticking_clock :
  reset_then_frames 100 (fst (FPSTimer_init example_env), example_env) =
  (Ok tt, ({| fps_t := 2; fps_iter := 0 |},
           {| clock := 3; trace := [Stdout [PyStr "fps"; PyFloat 100]] |})).
Proof. vm_compute. reflexivity. Qed.

(** ** Further properties of the timer *)

Section TimerWindows.
Context `{rt : Runtime}.

Lemma frames_app (a b : nat) (s : FPSTimer * env) :
  frames (a + b) s = (frames a;; frames b) s.
Proof.
  revert s. induction a as [|a IH]; intros s; [reflexivity|].
  cbn [frames Nat.add]. unfold mbind, ST_bind in *.
  destruct (on_frame s) as [[[]|x] s']; [apply IH|reflexivity].
Qed.

(** A full window from a zeroed counter. *)
Lemma frames_window (tm : FPSTimer) (e : env) :
  fps_iter tm = 0 ->
  (time_reading (clock e) - fps_t tm =? 0)%float = false ->
  frames 100 (tm, e) =
  (Ok tt,
   ({| fps_t := time_reading (S (clock e)); fps_iter := 0 |},
    {| clock := S (S (clock e));
       trace := trace e ++
         [Stdout [PyStr "fps";
                  PyFloat (100 / (time_reading (clock e) - fps_t tm))%float]] |})).
Proof.
  intros Hi Hz. change 100%nat with (99 + 1)%nat. rewrite frames_app.
  unfold mbind at 1. unfold ST_bind. rewrite frames_count by lia.
  cbn [frames]. unfold mbind, ST_bind.
  rewrite on_frame_report; [reflexivity|cbn; lia|exact Hz].
Qed.

(** The counter invariant: a frame that returns from a counter in
    [0, 100) leaves it in [0, 100); a frame that raises raised
    [ZeroDivisionError] on the 100th count, printed nothing and left the
    counter at 100, outside the window. *)
Lemma on_frame_keeps_window (tm : FPSTimer) (e : env) :
  0 <= fps_iter tm < 100 ->
  (fst (on_frame (tm, e)) = Ok tt ->
     0 <= fps_iter (fst (snd (on_frame (tm, e)))) < 100) /\
  (forall x, fst (on_frame (tm, e)) = Raise x ->
     x = ZeroDivisionError /\ fps_iter tm = 99 /\
     fps_iter (fst (snd (on_frame (tm, e)))) = 100 /\
     trace (snd (snd (on_frame (tm, e)))) = trace e).
Proof.
  intros Hr.
  destruct (Z.eq_dec (fps_iter tm + 1) 100) as [H|H].
  - destruct (time_reading (clock e) - fps_t tm =? 0)%float eqn:Hz.
    + rewrite on_frame_zero_elapsed by assumption. cbn.
      split; [discriminate|]. intros x [= <-]. repeat split; lia.
    + rewrite on_frame_report by assumption. cbn.
      split; [lia|]. intros x; discriminate.
  - rewrite on_frame_count by assumption. cbn.
    split; [lia|]. intros x; discriminate.
Qed.

(** Frames in a row, from a counter in [0, 100): the counter stays in
    [0, 100) as long as they return, and the only way out is the
    [ZeroDivisionError] of a 100th count, which leaves it at 100. *)
Theorem frames_keep_window (n : nat) (tm : FPSTimer) (e : env) :
  0 <= fps_iter tm < 100 ->
  (fst (frames n (tm, e)) = Ok tt ->
     0 <= fps_iter (fst (snd (frames n (tm, e)))) < 100) /\
  (forall x, fst (frames n (tm, e)) = Raise x ->
     x = ZeroDivisionError /\ fps_iter (fst (snd (frames n (tm, e)))) = 100).
Proof.
  revert tm e. induction n as [|n IH]; intros tm e Hr.
  - cbn. split; [auto|discriminate].
  - cbn [frames]. unfold mbind, ST_bind.
    destruct (on_frame_keeps_window tm e Hr) as [Hok Hraise].
    destruct (on_frame (tm, e)) as [[[]|x] [tm' e']] eqn:E; cbn in Hok, Hraise.
    + apply IH. apply Hok. reflexivity.
    + cbn. split; [discriminate|]. intros y [= <-].
      destruct (Hraise x eq_refl) as (-> & _ & H100 & _). auto.
Qed.

(** A counter at or past 100 is never 100 again: whatever the clock does,
    no later frame reports, reads the clock or raises, and the counter only
    grows. *)
Theorem stuck_timer_never_reports (n : nat) (tm : FPSTimer) (e : env) :
  100 <= fps_iter tm ->
  frames n (tm, e) = (Ok tt, (set_iter (fps_iter tm + Z.of_nat n) tm, e)) /\
  produced (frames n) (tm, e) = [].
Proof.
  intros H. pose proof (frames_stuck n tm e H) as Hs.
  split; [exact Hs|].
  apply produced_app. rewrite Hs. cbn. rewrite app_nil_r. reflexivity.
Qed.

(** The reporting cadence: after a reset at clock reading [c], as long as
    the reading that ends each window differs from the one that began it,
    [100 * k + r] frames ([r < 100]) make exactly [k] reports, the i-th of
    100 over the time read for the i-th window, and leave the counter at
    [r]; the clock has been read twice per report. *)
Theorem frames_report_every_window (k r : nat) (tm : FPSTimer) (e : env) :
  (r < 100)%nat ->
  (forall i, (i < k)%nat ->
     (time_reading (S (clock e + 2 * i)) - time_reading (clock e + 2 * i) =? 0)%float
     = false) ->
  reset_then_frames (100 * k + r) (tm, e) =
  (Ok tt,
   ({| fps_t := time_reading (clock e + 2 * k); fps_iter := Z.of_nat r |},
    {| clock := S (clock e + 2 * k);
       trace := trace e ++ map (window_report (clock e)) (seq 0 k) |})).
Proof.
  intros Hr Hz. unfold reset_then_frames, mbind at 1. unfold ST_bind.
  rewrite reset_spec.
  assert (Hk : frames (100 * k)
                 ({| fps_t := time_reading (clock e); fps_iter := 0 |},
                  {| clock := S (clock e); trace := trace e |}) =
               (Ok tt,
                ({| fps_t := time_reading (clock e + 2 * k); fps_iter := 0 |},
                 {| clock := S (clock e + 2 * k);
                    trace := trace e ++ map (window_report (clock e)) (seq 0 k) |}))).
  { clear Hr. induction k as [|k IH].
    - cbn. rewrite Nat.add_0_r, app_nil_r. reflexivity.
    - replace (100 * S k)%nat with (100 * k + 100)%nat by lia.
      rewrite frames_app. unfold mbind at 1. unfold ST_bind.
      rewrite IH by (intros i Hi; apply Hz; lia).
      rewrite frames_window; [|reflexivity|cbn; apply Hz; lia].
      cbn [clock trace fps_t]. rewrite seq_S, map_app, <- app_assoc.
      replace (clock e + 2 * S k)%nat with (S (S (clock e + 2 * k))) by lia.
      reflexivity. }
  rewrite frames_app. unfold mbind at 1. unfold ST_bind. rewrite Hk.
  rewrite frames_count by (cbn; lia). reflexivity.
Qed.

End TimerWindows.

(** ** Further properties of decoding *)

Section DecodingMore.
Context `{rt : Runtime}.

(** A payload decodes to a frame exactly when its four keys are present,
    the three scalars convert with [float] and the image field decodes;
    the frame then holds exactly the converted values. *)
Theorem decode_frame_ok_iff (d : gmap string pyval) (fr : TelemetryFrame) :
  decode_frame d = Ok fr <->
  exists v1 v2 v3 v4 b,
    d !! "steering_angle" = Some v1 /\ float_of v1 = Ok (last_steering fr) /\
    d !! "throttle" = Some v2 /\ float_of v2 = Ok (last_throttle fr) /\
    d !! "speed" = Some v3 /\ float_of v3 = Ok (speed fr) /\
    d !! "image" = Some v4 /\ b64decode v4 = Ok b /\ image_open b = Ok (image fr).
Proof.
  split; [apply decode_frame_ok_inv|].
  intros (v1 & v2 & v3 & v4 & b & K1 & F1 & K2 & F2 & K3 & F3 & K4 & B & I).
  unfold decode_frame, getitem. unfold mbind, result_bind, mret, result_ret.
  rewrite K1, F1, K2, F2, K3, F3, K4, B, I. destruct fr; reflexivity.
Qed.

(** Decoding raises exactly on the malformed payloads. *)
Theorem decode_frame_raises_iff (d : gmap string pyval) :
  (exists x, decode_frame d = Raise x) <-> malformed d.
Proof.
  split.
  - intros [x Hx]. exact (raises_malformed d x Hx).
  - apply malformed_raises.
Qed.

(** Only the four keys are read: payloads that agree on them decode alike,
    whatever else they carry. *)
Theorem decode_frame_reads_four_keys (d d' : gmap string pyval) :
  (forall k, k ∈ ["steering_angle"; "throttle"; "speed"; "image"] ->
     d !! k = d' !! k) ->
  decode_frame d = decode_frame d'.
Proof.
  intros H. unfold decode_frame, getitem.
  rewrite (H "steering_angle"), (H "throttle"), (H "speed"), (H "image");
    [reflexivity|..].
  - do 3 apply list_elem_of_further. apply list_elem_of_here.
  - do 2 apply list_elem_of_further. apply list_elem_of_here.
  - apply list_elem_of_further, list_elem_of_here.
  - apply list_elem_of_here.
Qed.

(** The fields are read in the order of the source: when [steering_angle]
    is missing the error is its [KeyError], whatever else is wrong with the
    payload, and the handler raises it. *)
Theorem telemetry_first_key_error (sid : string) (d : gmap string pyval)
    (srv : SteeringServer) (e : env) :
  truthy (Some d) = true ->
  d !! "steering_angle" = None ->
  decode_frame d = Raise (KeyError "steering_angle") /\
  telemetry sid (Some d) (srv, e) = (Raise (KeyError "steering_angle"), (srv, e)).
Proof.
  intros Ht Hk.
  assert (Hd : decode_frame d = Raise (KeyError "steering_angle")).
  { unfold decode_frame, getitem. rewrite Hk. reflexivity. }
  split; [exact Hd|]. apply telemetry_decode_error; assumption.
Qed.

End DecodingMore.

(** ** Further properties of the handlers *)

Lemma emits_app (l k : list effect) : emits (l ++ k) = emits l ++ emits k.
Proof.
  induction l as [|x l IH]; [reflexivity|].
  destruct x; cbn; congruence.
Qed.

Lemma emits_stdout (l : list effect) :
  forallb is_stdout l = true -> emits l = [].
Proof.
  induction l as [|x l IH]; [reflexivity|].
  destruct x; cbn; auto; discriminate.
Qed.

Lemma stdout_effect_ok (l : list effect) :
  forallb is_stdout l = true -> forallb effect_ok l = true.
Proof.
  induction l as [|x l IH]; [reflexivity|].
  destruct x; cbn; auto; discriminate.
Qed.

Section HandlersMore.
Context `{rt : Runtime}.

Lemma preprocess_trace_emits (srv : SteeringServer) (img : ndarray) :
  emits (preprocess_trace srv img) = [] /\
  forallb effect_ok (preprocess_trace srv img) = true.
Proof. unfold preprocess_trace. destruct (image_part srv); auto. Qed.

(** When the model raises, the handler raises the same exception after the
    part calls made so far: no event is emitted, the timer is not advanced
    and the server is left as it was. *)
Theorem telemetry_model_raises (sid : string) (d : gmap string pyval)
    (srv : SteeringServer) (e : env) (fr : TelemetryFrame) (img : ndarray)
    (x : exn) :
  truthy (Some d) = true ->
  decode_frame d = Ok fr ->
  preprocessed srv (image fr) = Ok img ->
  kpart srv img = Raise x ->
  fst (telemetry sid (Some d) (srv, e)) = Raise x /\
  fst (snd (telemetry sid (Some d) (srv, e))) = srv /\
  clock (snd (snd (telemetry sid (Some d) (srv, e)))) = clock e /\
  emits (produced (telemetry sid (Some d)) (srv, e)) = [] /\
  part_runs (produced (telemetry sid (Some d)) (srv, e)) =
    part_runs (preprocess_trace srv (image fr)) ++ [KpartRun img].
Proof.
  intros Ht Hd Hp Hk.
  pose proof (telemetry_predict_error sid d srv e fr img x Ht Hd Hp Hk) as H.
  assert (Hpr : produced (telemetry sid (Some d)) (srv, e) =
                preprocess_trace srv (image fr) ++ [KpartRun img]).
  { apply produced_app. rewrite H. reflexivity. }
  rewrite Hpr, H. cbn [fst snd]. repeat split.
  - rewrite emits_app. destruct (preprocess_trace_emits srv (image fr)) as [-> _].
    reflexivity.
  - rewrite part_runs_app. reflexivity.
Qed.

(** When the image filter raises, the model is never called: the handler
    raises the filter's exception, emits nothing and leaves the timer and
    the server as they were. *)
Theorem telemetry_filter_raises (sid : string) (d : gmap string pyval)
    (srv : SteeringServer) (e : env) (fr : TelemetryFrame) (x : exn) :
  truthy (Some d) = true ->
  decode_frame d = Ok fr ->
  preprocessed srv (image fr) = Raise x ->
  fst (telemetry sid (Some d) (srv, e)) = Raise x /\
  fst (snd (telemetry sid (Some d) (srv, e))) = srv /\
  clock (snd (snd (telemetry sid (Some d) (srv, e)))) = clock e /\
  produced (telemetry sid (Some d)) (srv, e) = [ImagePartRun (image fr)].
Proof.
  intros Ht Hd Hp.
  pose proof (telemetry_preprocess_error sid d srv e fr x Ht Hd Hp) as H.
  assert (Hpt : preprocess_trace srv (image fr) = [ImagePartRun (image fr)]).
  { unfold preprocessed in Hp. unfold preprocess_trace.
    destruct (image_part srv); [reflexivity|discriminate]. }
  rewrite H. cbn [fst snd]. repeat split.
  apply produced_app. rewrite H, Hpt. reflexivity.
Qed.

(** The model's throttle never reaches the simulator: the throttle of the
    "steer" event is the string of 0.3 or of 0.0, chosen by the reported
    speed alone. *)
Theorem model_throttle_ignored (sid : string) (d : gmap string pyval)
    (srv : SteeringServer) (e : env) (fr : TelemetryFrame) (img : ndarray)
    (steering throttle : float) :
  truthy (Some d) = true ->
  decode_frame d = Ok fr ->
  preprocessed srv (image fr) = Ok img ->
  kpart srv img = Ok (steering, throttle) ->
  emitted "steer" (produced (telemetry sid (Some d)) (srv, e)) =
    [steer_call (PyFloat (steering * steering_scale srv)%float)
       (PyFloat (if (speed fr <? top_speed srv)%float then 0.3%float else 0.0%float))].
Proof.
  intros Ht Hd Hp Hk.
  destruct (on_timer_frame_produced srv e
    (preprocess_trace srv (image fr) ++
     [KpartRun img;
      SioEmit (steer_call (PyFloat (steering * steering_scale srv)%float)
        (PyFloat (throttle_control srv (last_steering fr)
                    (last_throttle fr) (speed fr) throttle)))]))
    as (report & Htr & Hr).
  erewrite produced_app;
    [|rewrite (telemetry_ok sid d srv e fr img steering throttle Ht Hd Hp Hk);
      exact Htr].
  rewrite !emitted_app, (emitted_stdout _ report Hr), app_nil_r.
  unfold preprocess_trace, throttle_control.
  destruct (image_part srv); reflexivity.
Qed.

End HandlersMore.

(** ** What the server emits, over whole sessions *)

Lemma broadcast_spec (c : emit_call) :
  broadcast c = true ->
  (event c = "steer" \/ event c = "manual") /\
  room c = None /\ skip_sid c = PyBool true.
Proof.
  unfold broadcast. destruct c as [ev dt [r|] sk]; cbn.
  - rewrite andb_false_r. discriminate.
  - rewrite andb_true_r. destruct sk as [|[|]| | |]; try (rewrite andb_false_r; discriminate).
    rewrite andb_true_r. intros H. apply orb_true_iff in H.
    repeat split. destruct H as [H|H]; apply String.eqb_eq in H; auto.
Qed.

Lemma effect_ok_emits (l : list effect) :
  forallb effect_ok l = true -> forallb broadcast (emits l) = true.
Proof.
  induction l as [|x l IH]; [reflexivity|].
  destruct x; cbn; auto. intros H. apply andb_true_iff in H as [-> H]. auto.
Qed.

Section Sessions.
Context `{rt : Runtime}.

Lemma appends_ok_bind {O A B} (m : ST O A) (k : A -> ST O B) :
  appends_ok m -> (forall a, appends_ok (k a)) -> appends_ok (m ≫= k).
Proof.
  intros Hm Hk s. unfold mbind, ST_bind. destruct (Hm s) as (l & Hl & Hb).
  destruct (m s) as [[a|x] s']; cbn in *; [|eauto].
  destruct (Hk a s') as (l' & Hl' & Hb'). exists (l ++ l'). split.
  - rewrite Hl', Hl, app_assoc. reflexivity.
  - rewrite forallb_app, Hb, Hb'. reflexivity.
Qed.

Lemma appends_ok_pure {O A} (m : ST O A) :
  (forall s, trace (snd (snd (m s))) = trace (snd s)) -> appends_ok m.
Proof. intros H s. exists []. rewrite H, app_nil_r. auto. Qed.

Lemma appends_ok_log {O} (x : effect) :
  effect_ok x = true -> appends_ok (log (O := O) x).
Proof. intros H s. exists [x]. cbn. rewrite H. auto. Qed.

Lemma appends_ok_on_timer_frame : appends_ok (on_timer on_frame).
Proof.
  intros [srv e]. rewrite on_timer_trace.
  destruct (on_frame_trace (timer srv) e) as (report & H & Hr).
  exists report. split; [exact H|apply stdout_effect_ok, Hr].
Qed.

Lemma appends_ok_telemetry (sid : string) (payload : option (gmap string pyval)) :
  appends_ok (telemetry sid payload).
Proof.
  unfold telemetry. apply appends_ok_bind;
    [|intros; apply appends_ok_on_timer_frame].
  destruct (truthy payload); [|apply appends_ok_log; reflexivity].
  apply appends_ok_bind; [apply appends_ok_pure; reflexivity|intros fr].
  apply appends_ok_bind; [|intros img].
  { intros [srv e]. rewrite preprocess_spec. eexists. split; [reflexivity|].
    apply preprocess_trace_emits. }
  apply appends_ok_bind; [|intros [st th]].
  { intros [srv e]. rewrite predict_spec. eexists. split; reflexivity. }
  apply appends_ok_bind; [apply appends_ok_pure; reflexivity|intros self].
  apply appends_ok_log. reflexivity.
Qed.

Lemma appends_ok_connect (sid : string) (environ : gmap string string) :
  appends_ok (connect sid environ).
Proof.
  unfold connect. apply appends_ok_bind; [apply appends_ok_log; reflexivity|intros _].
  apply appends_ok_bind; [|intros; apply appends_ok_log; reflexivity].
  intros [srv e]. rewrite on_timer_trace. exists []. rewrite app_nil_r. auto.
Qed.

Lemma appends_ok_run_call (c : call) : appends_ok (run_call c).
Proof.
  destruct c; cbn [run_call].
  - apply appends_ok_connect.
  - apply appends_ok_telemetry.
  - apply appends_ok_pure. reflexivity.
  - apply appends_ok_log. reflexivity.
Qed.

Lemma run_calls_effects_ok (cs : list call) (s : SteeringServer * env) :
  exists l, trace (snd (run_calls cs s)) = trace (snd s) ++ l /\
            forallb effect_ok l = true.
Proof.
  revert s. induction cs as [|c cs IH]; intros s.
  - exists []. cbn. rewrite app_nil_r. auto.
  - cbn [run_calls]. destruct (IH (snd (run_call c s))) as (l & Hl & Hb).
    destruct (appends_ok_run_call c s) as (l' & Hl' & Hb').
    exists (l' ++ l). split.
    + rewrite Hl, Hl', app_assoc. reflexivity.
    + rewrite forallb_app, Hb, Hb'. reflexivity.
Qed.

(** Whatever sequence of [connect], [telemetry], [throttle_control] and
    [send_control] calls the server goes through, every event it emits is a
    "steer" or a "manual" event sent with no recipient and [skip_sid=True]:
    it never addresses one client, and under python-socketio's delivery
    rule each event reaches every connected client. *)
Theorem server_only_broadcasts (cs : list call) (s : SteeringServer * env)
    (c : emit_call) :
  c ∈ emits (drop (length (trace (snd s))) (trace (snd (run_calls cs s)))) ->
  (event c = "steer" \/ event c = "manual") /\
  room c = None /\ skip_sid c = PyBool true /\
  (forall connected : list string, recipients connected c = connected).
Proof.
  destruct (run_calls_effects_ok cs s) as (l & Hl & Hb).
  rewrite Hl, drop_app_length. intros Hc.
  pose proof (effect_ok_emits l Hb) as Hall.
  rewrite forallb_forall in Hall.
  apply list_elem_of_In in Hc. specialize (Hall c Hc).
  destruct (broadcast_spec c Hall) as (He & Hr & Hs).
  repeat split; auto. intros connected. apply recipients_broadcast; assumption.
Qed.

(** One [telemetry] call emits at most one event, and which one is decided
    by the payload and the parts: exactly the "manual" event for an empty or
    absent payload; exactly the "steer" event of the scaled steering and the
    governed throttle for a payload that decodes and parts that return;
    none at all when decoding, the filter or the model raises. *)
Theorem telemetry_emits_at_most_one (sid : string)
    (payload : option (gmap string pyval)) (srv : SteeringServer) (e : env) :
  (length (emits (produced (telemetry sid payload) (srv, e))) <= 1)%nat /\
  (truthy payload = false ->
     emits (produced (telemetry sid payload) (srv, e)) = [manual_call]) /\
  (forall d fr img steering throttle,
     payload = Some d -> truthy (Some d) = true ->
     decode_frame d = Ok fr ->
     preprocessed srv (image fr) = Ok img ->
     kpart srv img = Ok (steering, throttle) ->
     emits (produced (telemetry sid payload) (srv, e)) =
       [steer_call (PyFloat (steering * steering_scale srv)%float)
          (PyFloat (throttle_control srv (last_steering fr) (last_throttle fr)
                      (speed fr) throttle))]) /\
  (forall d x,
     payload = Some d -> truthy (Some d) = true ->
     (decode_frame d = Raise x \/
      (exists fr, decode_frame d = Ok fr /\
                  preprocessed srv (image fr) = Raise x) \/
      (exists fr img, decode_frame d = Ok fr /\
                      preprocessed srv (image fr) = Ok img /\
                      kpart srv img = Raise x)) ->
     emits (produced (telemetry sid payload) (srv, e)) = []).
Proof.
  assert (Hmanual : truthy payload = false ->
    emits (produced (telemetry sid payload) (srv, e)) = [manual_call]).
  { intros Ht.
    destruct (on_timer_frame_produced srv e [SioEmit manual_call])
      as (report & Htr & Hr).
    erewrite produced_app;
      [|rewrite (telemetry_falsy sid payload srv e Ht); exact Htr].
    cbn. rewrite (emits_stdout report Hr). reflexivity. }
  assert (Hsteer : forall d fr img steering throttle,
     payload = Some d -> truthy (Some d) = true ->
     decode_frame d = Ok fr ->
     preprocessed srv (image fr) = Ok img ->
     kpart srv img = Ok (steering, throttle) ->
     emits (produced (telemetry sid payload) (srv, e)) =
       [steer_call (PyFloat (steering * steering_scale srv)%float)
          (PyFloat (throttle_control srv (last_steering fr) (last_throttle fr)
                      (speed fr) throttle))]).
  { intros d fr img st th -> Ht Hd Hp Hk.
    destruct (on_timer_frame_produced srv e
      (preprocess_trace srv (image fr) ++
       [KpartRun img;
        SioEmit (steer_call (PyFloat (st * steering_scale srv)%float)
          (PyFloat (throttle_control srv (last_steering fr)
                      (last_throttle fr) (speed fr) th)))]))
      as (report & Htr & Hr).
    erewrite produced_app;
      [|rewrite (telemetry_ok sid d srv e fr img st th Ht Hd Hp Hk); exact Htr].
    rewrite !emits_app, (emits_stdout report Hr).
    destruct (preprocess_trace_emits srv (image fr)) as [-> _]. reflexivity. }
  assert (Hnone : forall d x,
     payload = Some d -> truthy (Some d) = true ->
     (decode_frame d = Raise x \/
      (exists fr, decode_frame d = Ok fr /\
                  preprocessed srv (image fr) = Raise x) \/
      (exists fr img, decode_frame d = Ok fr /\
                      preprocessed srv (image fr) = Ok img /\
                      kpart srv img = Raise x)) ->
     emits (produced (telemetry sid payload) (srv, e)) = []).
  { intros d x -> Ht [Hd|[(fr & Hd & Hp)|(fr & img & Hd & Hp & Hk)]].
    - erewrite produced_app;
        [|rewrite (telemetry_decode_error sid d srv e x Ht Hd); cbn;
          rewrite app_nil_r; reflexivity].
      reflexivity.
    - erewrite produced_app;
        [|rewrite (telemetry_preprocess_error sid d srv e fr x Ht Hd Hp);
          reflexivity].
      apply preprocess_trace_emits.
    - erewrite produced_app;
        [|rewrite (telemetry_predict_error sid d srv e fr img x Ht Hd Hp Hk);
          reflexivity].
      rewrite emits_app.
      destruct (preprocess_trace_emits srv (image fr)) as [-> _]. reflexivity. }
  split; [|auto].
  destruct (truthy payload) eqn:Ht.
  - destruct payload as [d|]; [|discriminate].
    destruct (decode_frame d) as [fr|x] eqn:Hd.
    + destruct (preprocessed srv (image fr)) as [img|x] eqn:Hp.
      * destruct (kpart srv img) as [[st th]|x] eqn:Hk.
        -- rewrite (Hsteer d fr img st th eq_refl Ht Hd Hp Hk). cbn. lia.
        -- rewrite (Hnone d x eq_refl Ht); [cbn; lia|]. right. right. eauto.
      * rewrite (Hnone d x eq_refl Ht); [cbn; lia|]. right. left. eauto.
    + rewrite (Hnone d x eq_refl Ht); [cbn; lia|]. left. exact Hd.
  - rewrite (Hmanual eq_refl). cbn. lia.
Qed.

End Sessions.

(** ** Manual sessions and the shared timer *)

Section ManualSessions.
Context `{rt : Runtime}.

Lemma set_timer_same (srv : SteeringServer) : set_timer (timer srv) srv = srv.
Proof. destruct srv. reflexivity. Qed.

Lemma manual_frame_counts (sid : string) (srv : SteeringServer) (e : env) :
  fps_iter (timer srv) + 1 <> 100 ->
  snd (telemetry sid None (srv, e)) =
  (set_timer (set_iter (fps_iter (timer srv) + 1) (timer srv)) srv,
   record [SioEmit manual_call] e).
Proof.
  intros H. rewrite telemetry_falsy by reflexivity.
  unfold on_timer. cbn [fst snd]. rewrite on_frame_count by assumption.
  reflexivity.
Qed.

Lemma manual_frames_count (sids : list string) (srv : SteeringServer) (e : env) :
  fps_iter (timer srv) + Z.of_nat (length sids) < 100 ->
  run_calls (manual_frames sids) (srv, e) =
  (set_timer (set_iter (fps_iter (timer srv) + Z.of_nat (length sids)) (timer srv)) srv,
   record (repeat (SioEmit manual_call) (length sids)) e).
Proof.
  revert srv e. induction sids as [|sid sids IH]; intros srv e H.
  - cbn [manual_frames map run_calls length repeat Z.of_nat].
    rewrite Z.add_0_r, record_nil. destruct srv as [[] ? ? ? ?]. reflexivity.
  - cbn [manual_frames map run_calls run_call length] in *.
    rewrite manual_frame_counts by lia.
    fold (manual_frames sids). rewrite IH by (cbn; lia).
    rewrite record_record. cbn [repeat app].
    f_equal. unfold set_timer, set_iter; cbn. do 2 f_equal. lia.
Qed.

Lemma connect_then_manual_frames (sid : string) (environ : gmap string string)
    (sids : list string) (srv : SteeringServer) (e : env) :
  (length sids < 100)%nat ->
  run_calls (CallConnect sid environ :: manual_frames sids) (srv, e) =
  (set_timer {| fps_t := time_reading (clock e);
                fps_iter := Z.of_nat (length sids) |} srv,
   {| clock := S (clock e);
      trace := trace e ++
        [Stdout [PyStr "connect "; PyStr sid];
         SioEmit (steer_call (PyInt 0) (PyInt 0))] ++
        repeat (SioEmit manual_call) (length sids) |}).
Proof.
  intros H. cbn [run_calls run_call].
  assert (Hc : snd (connect sid environ (srv, e)) =
    (set_timer {| fps_t := time_reading (clock e); fps_iter := 0 |} srv,
     {| clock := S (clock e);
        trace := trace e ++ [Stdout [PyStr "connect "; PyStr sid];
                             SioEmit (steer_call (PyInt 0) (PyInt 0))] |})).
  { unfold connect, send_control, on_timer. unfold_st. cbn [fst snd].
    rewrite reset_spec. cbn. rewrite <- app_assoc. reflexivity. }
  rewrite Hc, manual_frames_count by (cbn; lia).
  unfold record. cbn. rewrite <- app_assoc. reflexivity.
Qed.

(** The timer belongs to the server, not to a connection: after a
    [connect], fewer than 100 empty telemetry events, from whichever
    connections, are answered by as many "manual" events after the zero
    command, no part is called, and all are counted in the one window the
    [connect] opened. *)
Theorem manual_session_counts (sid : string) (environ : gmap string string)
    (sids : list string) (srv : SteeringServer) (e : env) :
  (length sids < 100)%nat ->
  fps_iter (timer (fst (run_calls (CallConnect sid environ :: manual_frames sids)
                          (srv, e)))) = Z.of_nat (length sids) /\
  emits (drop (length (trace e))
           (trace (snd (run_calls (CallConnect sid environ :: manual_frames sids)
                          (srv, e))))) =
    steer_call (PyInt 0) (PyInt 0) :: repeat manual_call (length sids) /\
  part_runs (drop (length (trace e))
               (trace (snd (run_calls (CallConnect sid environ :: manual_frames sids)
                              (srv, e))))) = [].
Proof.
  intros H. rewrite (connect_then_manual_frames sid environ sids srv e H).
  cbn [fst snd timer set_timer fps_iter trace]. rewrite drop_app_length.
  split; [reflexivity|]. cbn [app emits part_runs].
  generalize (length sids) as n. clear.
  induction n as [|n [IH1 IH2]]; [auto|]. cbn. split; [|exact IH2].
  f_equal. injection IH1 as IH1. rewrite IH1. reflexivity.
Qed.

(** The 100th empty telemetry event after a [connect] fills the window:
    once its "manual" event is sent the rate is printed, 100 over the time
    read since the [connect], provided the two readings differ. *)
Theorem manual_session_reports (sid : string) (environ : gmap string string)
    (sids : list string) (srv : SteeringServer) (e : env) :
  length sids = 100%nat ->
  (time_reading (S (clock e)) - time_reading (clock e) =? 0)%float = false ->
  run_calls (CallConnect sid environ :: manual_frames sids) (srv, e) =
  (set_timer {| fps_t := time_reading (S (S (clock e))); fps_iter := 0 |} srv,
   {| clock := S (S (S (clock e)));
      trace := trace e ++
        [Stdout [PyStr "connect "; PyStr sid];
         SioEmit (steer_call (PyInt 0) (PyInt 0))] ++
        repeat (SioEmit manual_call) 100 ++
        [Stdout [PyStr "fps";
                 PyFloat (100 / (time_reading (S (clock e))
                                 - time_reading (clock e)))%float]] |}).
Proof.
  intros Hlen Hz.
  destruct (exists_last (l := sids)) as (front & last & ->);
    [intros ->; discriminate|].
  rewrite length_app in Hlen. cbn in Hlen.
  assert (Hf : length front = 99%nat) by lia.
  unfold manual_frames. rewrite map_app. fold (manual_frames front).
  change (CallConnect sid environ :: manual_frames front ++ map _ [last])
    with ((CallConnect sid environ :: manual_frames front) ++
          [CallTelemetry last None]).
  assert (Happ : forall cs cs' s, run_calls (cs ++ cs') s = run_calls cs' (run_calls cs s)).
  { induction cs as [|c cs IH]; intros cs' s; [reflexivity|]. cbn. apply IH. }
  rewrite Happ, connect_then_manual_frames by lia.
  cbn [run_calls run_call]. rewrite telemetry_falsy by reflexivity.
  unfold on_timer. cbn [fst snd timer set_timer].
  rewrite on_frame_report; [|cbn; lia|exact Hz].
  rewrite Hf. cbn [fst snd clock trace record fps_t].
  unfold set_timer. cbn [timer kpart image_part steering_scale top_speed].
  do 2 f_equal.
  change (repeat (SioEmit manual_call) 100)
    with (repeat (SioEmit manual_call) 99 ++ [SioEmit manual_call]).
  rewrite <- !app_assoc. reflexivity.
Qed.

(** A server counts from its construction: without any [connect], the
    empty telemetry events that follow [SteeringServer(...)] are counted in
    a window that began at the time read by the constructor's [FPSTimer()],
    and the clock is not read again before the window fills. *)
Theorem fresh_server_counts (kp : ndarray -> result (float * float))
    (ts : float) (ip : option (ndarray -> result ndarray)) (sc : float)
    (e : env) (sids : list string) :
  (length sids < 100)%nat ->
  timer (fst (run_calls (manual_frames sids) (SteeringServer_init kp ts ip sc e))) =
    {| fps_t := time_reading (clock e); fps_iter := Z.of_nat (length sids) |} /\
  clock (snd (run_calls (manual_frames sids) (SteeringServer_init kp ts ip sc e))) =
    S (clock e).
Proof.
  intros H. unfold SteeringServer_init, FPSTimer_init.
  rewrite manual_frames_count by (cbn; lia). cbn. auto.
Qed.

End ManualSessions.

(** ** The throttle policy on NaN *)

Lemma float_ltb_nan (x : float) :
  (nan <? x)%float = false /\ (x <? nan)%float = false.
Proof.
  rewrite !ltb_spec. unfold SFltb.
  change (Prim2SF nan) with S754_nan.
  split; [reflexivity|]. destruct (Prim2SF x); reflexivity.
Qed.

Section ThrottleNaN.
Context `{rt : Runtime}.

(** A speed that is not a number, or a server configured with a top speed
    that is not a number, makes the policy coast: the throttle is 0.0. *)
Theorem throttle_control_nan (self : SteeringServer)
    (last_steering last_throttle speed nn_throttle : float) :
  speed = nan \/ top_speed self = nan ->
  throttle_control self last_steering last_throttle speed nn_throttle = 0.0%float.
Proof.
  unfold throttle_control. intros [->| ->].
  - rewrite (proj1 (float_ltb_nan _)). reflexivity.
  - rewrite (proj2 (float_ltb_nan _)). reflexivity.
Qed.

End ThrottleNaN.

(** ** The further properties on concrete sessions *)

Lemma frames_keep_window_witness :
  0 <= fps_iter (fst (FPSTimer_init example_env)) < 100 /\
  fst (frames 250 (FPSTimer_init example_env)) = Ok tt /\
  0 <= fps_iter (fst (snd (frames 250 (FPSTimer_init example_env)))) < 100.
Proof.
  assert (Hr : 0 <= fps_iter (fst (FPSTimer_init example_env)) < 100)
    by (cbn; lia).
  assert (Hok : fst (frames 250 (FPSTimer_init example_env)) = Ok tt)
    by (vm_compute; reflexivity).
  exact (conj Hr (conj Hok
    (proj1 (frames_keep_window 250 (fst (FPSTimer_init example_env))
              (snd (FPSTimer_init example_env)) Hr) Hok))).
Defined.

Lemma stuck_timer_never_reports_witness :
  100 <= fps_iter {| fps_t := 1000; fps_iter := 100 |} /\
  produced (frames 300) ({| fps_t := 1000; fps_iter := 100 |}, example_env) = [].
Proof.
  assert (H : 100 <= fps_iter {| fps_t := 1000; fps_iter := 100 |})
    by (cbn; lia).
  exact (conj H
    (proj2 (stuck_timer_never_reports 300 {| fps_t := 1000; fps_iter := 100 |}
              example_env H))).
Defined.

Lemma frames_report_every_window_witness :
  (5 < 100)%nat /\
  reset_then_frames 205 (fst (FPSTimer_init example_env), example_env) =
  (Ok tt, ({| fps_t := 4; fps_iter := 5 |},
           {| clock := 5;
              trace := [Stdout [PyStr "fps"; PyFloat 100];
                        Stdout [PyStr "fps"; PyFloat 100]] |})).
Proof.
  assert (Hr : (5 < 100)%nat) by lia.
  assert (Hz : forall i, (i < 2)%nat ->
    (time_reading (S (clock example_env + 2 * i))
     - time_reading (clock example_env + 2 * i) =? 0)%float = false).
  { intros [|[|i]] Hi; [reflexivity|reflexivity|lia]. }
  exact (conj Hr
    (frames_report_every_window 2 5 (fst (FPSTimer_init example_env))
       example_env Hr Hz)).
Defined.

Lemma decode_frame_reads_four_keys_witness :
  (forall k, k ∈ ["steering_angle"; "throttle"; "speed"; "image"] ->
     payload_with_extra_key !! k = example_payload !! k) /\
  decode_frame payload_with_extra_key = Ok example_frame.
Proof.
  assert (H : forall k, k ∈ ["steering_angle"; "throttle"; "speed"; "image"] ->
                payload_with_extra_key !! k = example_payload !! k).
  { intros k Hk.
    repeat (apply elem_of_cons in Hk as [->|Hk]; [vm_compute; reflexivity|]).
    inversion Hk. }
  split; [exact H|].
  rewrite (decode_frame_reads_four_keys payload_with_extra_key example_payload H).
  vm_compute. reflexivity.
Defined.

Lemma telemetry_first_key_error_witness :
  truthy (Some payload_speed_only) = true /\
  payload_speed_only !! "steering_angle" = None /\
  telemetry "a" (Some payload_speed_only) example_server =
    (Raise (KeyError "steering_angle"), example_server).
Proof.
  assert (Ht : truthy (Some payload_speed_only) = true) by (vm_compute; reflexivity).
  assert (Hk : payload_speed_only !! "steering_angle" = None)
    by (vm_compute; reflexivity).
  exact (conj Ht (conj Hk
    (proj2 (telemetry_first_key_error "a" payload_speed_only
              (fst example_server) (snd example_server) Ht Hk)))).
Defined.

Lemma telemetry_model_raises_witness :
  truthy (Some example_payload) = true /\
  decode_frame example_payload = Ok example_frame /\
  preprocessed (fst server_with_failing_model) example_image = Ok example_image /\
  kpart (fst server_with_failing_model) example_image = Raise (Exception "predict") /\
  fst (telemetry "a" (Some example_payload) server_with_failing_model) =
    Raise (Exception "predict") /\
  emits (produced (telemetry "a" (Some example_payload)) server_with_failing_model)
    = [].
Proof.
  assert (Ht : truthy (Some example_payload) = true) by (vm_compute; reflexivity).
  assert (Hd : decode_frame example_payload = Ok example_frame)
    by (vm_compute; reflexivity).
  assert (Hp : preprocessed (fst server_with_failing_model) (image example_frame) =
               Ok example_image) by reflexivity.
  assert (Hk : kpart (fst server_with_failing_model) example_image =
               Raise (Exception "predict")) by reflexivity.
  pose proof (telemetry_model_raises "a" example_payload
                (fst server_with_failing_model) (snd server_with_failing_model)
                example_frame example_image (Exception "predict") Ht Hd Hp Hk)
    as (Hr & _ & _ & He & _).
  exact (conj Ht (conj Hd (conj Hp (conj Hk (conj Hr He))))).
Defined.

Lemma telemetry_filter_raises_witness :
  truthy (Some example_payload) = true /\
  decode_frame example_payload = Ok example_frame /\
  preprocessed (fst server_with_failing_filter) example_image =
    Raise (Exception "filter") /\
  produced (telemetry "a" (Some example_payload)) server_with_failing_filter =
    [ImagePartRun example_image].
Proof.
  assert (Ht : truthy (Some example_payload) = true) by (vm_compute; reflexivity).
  assert (Hd : decode_frame example_payload = Ok example_frame)
    by (vm_compute; reflexivity).
  assert (Hp : preprocessed (fst server_with_failing_filter) (image example_frame) =
               Raise (Exception "filter")) by reflexivity.
  pose proof (telemetry_filter_raises "a" example_payload
                (fst server_with_failing_filter) (snd server_with_failing_filter)
                example_frame (Exception "filter") Ht Hd Hp)
    as (_ & _ & _ & Hpr).
  exact (conj Ht (conj Hd (conj Hp Hpr))).
Defined.

Lemma model_throttle_ignored_witness :
  truthy (Some example_payload) = true /\
  decode_frame example_payload = Ok example_frame /\
  preprocessed (fst example_server) example_image = Ok example_image /\
  kpart (fst example_server) example_image = Ok (0.5%float, 1.0%float) /\
  emitted "steer" (produced (telemetry "a" (Some example_payload)) example_server)
    = [steer_call (PyFloat 0.5) (PyFloat 0.3)].
Proof.
  assert (Ht : truthy (Some example_payload) = true) by (vm_compute; reflexivity).
  assert (Hd : decode_frame example_payload = Ok example_frame)
    by (vm_compute; reflexivity).
  assert (Hp : preprocessed (fst example_server) (image example_frame) =
               Ok example_image) by reflexivity.
  assert (Hk : kpart (fst example_server) example_image =
               Ok (0.5%float, 1.0%float)) by reflexivity.
  exact (conj Ht (conj Hd (conj Hp (conj Hk
    (model_throttle_ignored "a" example_payload (fst example_server)
       (snd example_server) example_frame example_image
       0.5%float 1.0%float Ht Hd Hp Hk))))).
Defined.

Lemma server_only_broadcasts_witness :
  steer_call (PyInt 0) (PyInt 0) ∈
    emits (drop (length (trace (snd example_server)))
             (trace (snd (run_calls [CallConnect "a" ∅;
                                     CallTelemetry "a" (Some example_payload)]
                            example_server)))) /\
  room (steer_call (PyInt 0) (PyInt 0)) = None /\
  recipients ["a"; "b"] (steer_call (PyInt 0) (PyInt 0)) = ["a"; "b"].
Proof.
  assert (H : steer_call (PyInt 0) (PyInt 0) ∈
    emits (drop (length (trace (snd example_server)))
             (trace (snd (run_calls [CallConnect "a" ∅;
                                     CallTelemetry "a" (Some example_payload)]
                            example_server))))).
  { apply list_elem_of_here. }
  pose proof (server_only_broadcasts
                [CallConnect "a" ∅; CallTelemetry "a" (Some example_payload)]
                example_server (steer_call (PyInt 0) (PyInt 0)) H)
    as (_ & Hr & _ & Hall).
  exact (conj H (conj Hr (Hall ["a"; "b"]))).
Defined.

Lemma manual_session_counts_witness :
  (length ["a"; "b"; "a"] < 100)%nat /\
  fps_iter (timer (fst (run_calls (CallConnect "a" ∅ :: manual_frames ["a"; "b"; "a"])
                          example_server))) = 3.
Proof.
  assert (H : (length ["a"; "b"; "a"] < 100)%nat) by (cbn; lia).
  exact (conj H
    (proj1 (manual_session_counts "a" ∅ ["a"; "b"; "a"] (fst example_server)
              (snd example_server) H))).
Defined.

Lemma manual_session_reports_witness :
  length (repeat "a" 100) = 100%nat /\
  (time_reading 1 - time_reading 0 =? 0)%float = false /\
  run_calls (CallConnect "a" ∅ :: manual_frames (repeat "a" 100))
    (fst example_server, {| clock := 0; trace := [] |}) =
  (set_timer {| fps_t := time_reading 2; fps_iter := 0 |} (fst example_server),
   {| clock := 3;
      trace := [] ++
        [Stdout [PyStr "connect "; PyStr "a"];
         SioEmit (steer_call (PyInt 0) (PyInt 0))] ++
        repeat (SioEmit manual_call) 100 ++
        [Stdout [PyStr "fps";
                 PyFloat (100 / (time_reading 1 - time_reading 0))%float]] |}).
Proof.
  assert (Hl : length (repeat "a" 100) = 100%nat) by reflexivity.
  assert (Hz : (time_reading 1 - time_reading 0 =? 0)%float = false)
    by reflexivity.
  exact (conj Hl (conj Hz
    (manual_session_reports (rt := ticking_runtime) "a" ∅ (repeat "a" 100)
       (fst example_server) {| clock := 0; trace := [] |} Hl Hz))).
Defined.

Lemma throttle_control_nan_witness :
  (nan = nan \/ top_speed (fst example_server) = nan) /\
  throttle_control (fst example_server) 0 0 nan 1 = 0.0%float.
Proof.
  assert (H : nan = nan \/ top_speed (fst example_server) = nan)
    by (left; reflexivity).
  exact (conj H (throttle_control_nan (fst example_server) 0 0 nan 1 H)).
Defined.

Lemma fresh_server_counts_witness :
  (length ["a"; "b"] < 100)%nat /\
  timer (fst (run_calls (manual_frames ["a"; "b"]) example_server)) =
    {| fps_t := 0; fps_iter := 2 |}.
Proof.
  assert (H : (length ["a"; "b"] < 100)%nat) by (cbn; lia).
  exact (conj H
    (proj1 (fresh_server_counts example_kpart default_top_speed None
              default_steering_scale example_env ["a"; "b"] H))).
Defined.

Lemma telemetry_emits_at_most_one_witness :
  truthy None = false /\
  emits (produced (telemetry "a" None) example_server) = [manual_call] /\
  truthy (Some example_payload) = true /\
  decode_frame example_payload = Ok example_frame /\
  emits (produced (telemetry "a" (Some example_payload)) example_server) =
    [steer_call (PyFloat 0.5) (PyFloat 0.3)] /\
  decode_frame payload_without_speed = Raise (KeyError "speed") /\
  emits (produced (telemetry "a" (Some payload_without_speed)) example_server) = [].
Proof.
  assert (Hn : truthy None = false) by reflexivity.
  assert (Ht : truthy (Some example_payload) = true) by (vm_compute; reflexivity).
  assert (Hd : decode_frame example_payload = Ok example_frame)
    by (vm_compute; reflexivity).
  assert (Hp : preprocessed (fst example_server) (image example_frame) =
               Ok example_image) by reflexivity.
  assert (Hk : kpart (fst example_server) example_image =
               Ok (0.5%float, 1.0%float)) by reflexivity.
  assert (Ht' : truthy (Some payload_without_speed) = true)
    by (vm_compute; reflexivity).
  assert (Hd' : decode_frame payload_without_speed = Raise (KeyError "speed"))
    by (vm_compute; reflexivity).
  pose proof (telemetry_emits_at_most_one "a" None (fst example_server)
                (snd example_server)) as (_ & Hmanual & _).
  pose proof (telemetry_emits_at_most_one "a" (Some example_payload)
                (fst example_server) (snd example_server)) as (_ & _ & Hsteer & _).
  pose proof (telemetry_emits_at_most_one "a" (Some payload_without_speed)
                (fst example_server) (snd example_server)) as (_ & _ & _ & Hnone).
  split; [exact Hn|]. split; [exact (Hmanual Hn)|].
  split; [exact Ht|]. split; [exact Hd|].
  split; [exact (Hsteer example_payload example_frame example_image
                   0.5%float 1.0%float eq_refl Ht Hd Hp Hk)|].
  split; [exact Hd'|].
  exact (Hnone payload_without_speed (KeyError "speed") eq_refl Ht' (or_introl Hd')).
Defined.
